(** * attempt-jav-file-match.py: identifier parsing, grouping and the matching loop

    A shallow embedding of [src/attempt-jav-file-match.py].

    Python [str] values are modelled as [list ascii], a character being
    its code point in 0..255.  Character classes, [str.isspace],
    [str.lower] and [str.upper] follow CPython on this range; the two code
    points whose upper-case form lies outside of it, U+00B5 (U+039C) and
    U+00FF (U+0178), are left unchanged by [upper].

    A raised [ValueError] is modelled by [None]; the exceptions of the HTTP
    helpers and of [sys.exit] by the [Exn] type of the monad [M] below. *)

From Stdlib Require Import List Ascii String Bool Arith Lia ZArith.
Import ListNotations.

Local Open Scope char_scope.
Local Open Scope list_scope.

Local Abbreviation length := List.length.

(** ** Python strings *)

Definition str := list ascii.

Definition lit (s : string) : str := list_ascii_of_string s.

Module PyStr.

Definition code (c : ascii) : nat := nat_of_ascii c.

Definition in_range (lo hi c : ascii) : bool :=
  Nat.leb (code lo) (code c) && Nat.leb (code c) (code hi).

(** [str.isspace] on one character: TAB..CR, FS..US, the space, U+0085
    and the no-break space U+00A0. *)
Definition isspace (c : ascii) : bool :=
  in_range "009" "013" c || in_range "028" "032" c
  || Ascii.eqb c "133" || Ascii.eqb c "160".

(** The upper-case form of a character, where it is one character:
    a..z, and U+00E0..U+00FE but the division sign U+00F7. *)
Definition upper_char (c : ascii) : ascii :=
  if in_range "a" "z" c || (in_range "224" "254" c && negb (Ascii.eqb c "247"))
  then ascii_of_nat (code c - 32) else c.

(** The lower-case form of a character: A..Z, and U+00C0..U+00DE but the
    multiplication sign U+00D7. *)
Definition lower_char (c : ascii) : ascii :=
  if in_range "A" "Z" c || (in_range "192" "222" c && negb (Ascii.eqb c "215"))
  then ascii_of_nat (code c + 32) else c.

(** [str.upper] of one character: the sharp s U+00DF becomes ["SS"]. *)
Definition upper_chars (c : ascii) : str :=
  if Ascii.eqb c "223" then ["S"; "S"] else [upper_char c].

Definition upper (s : str) : str := flat_map upper_chars s.
Definition lower (s : str) : str := map lower_char s.

Definition mem (c : ascii) (cs : str) : bool := existsb (Ascii.eqb c) cs.

Fixpoint dropwhile (p : ascii -> bool) (s : str) : str :=
  match s with
  | [] => []
  | c :: s' => if p c then dropwhile p s' else s
  end.

(** [s.lstrip(chars)] *)
Definition lstrip (chars : str) (s : str) : str :=
  dropwhile (fun c => mem c chars) s.

(** [s.strip()] without argument: whitespace on both ends. *)
Definition strip (s : str) : str :=
  rev (dropwhile isspace (rev (dropwhile isspace s))).

Definition is_sign (c : ascii) : bool := Ascii.eqb c "+" || Ascii.eqb c "-".

(** [s.zfill(width)]: zeros are inserted after a leading sign. *)
Definition zfill (width : nat) (s : str) : str :=
  if Nat.leb width (length s) then s
  else
    let fill := width - length s in
    match s with
    | [] => repeat "0" fill
    | c :: rest =>
        if is_sign c then c :: repeat "0" fill ++ rest
        else repeat "0" fill ++ s
    end.

(** [s.startswith(prefix)] *)
Fixpoint startswith (s prefix : str) : bool :=
  match prefix, s with
  | [], _ => true
  | _ :: _, [] => false
  | p :: prefix', c :: s' => Ascii.eqb c p && startswith s' prefix'
  end.

Definition eqb (a b : str) : bool :=
  if list_eq_dec ascii_dec a b then true else false.

End PyStr.

(** ** The fragment of [re] used by [PAT_JAV_ID] *)

Module Re.

Inductive CharSet :=
| Range (lo hi : ascii)        (* [lo-hi] *)
| OneOf (cs : list ascii)      (* [\-_\.] *)
| Whitespace.                  (* \s *)

Inductive Node :=
| NotPrecededBy (cs : CharSet)                          (* (?<![..]) *)
| Repeat (cs : CharSet) (lo : nat) (hi : option nat)    (* X* , X{lo,hi} *)
| Capture (cs : CharSet) (lo : nat) (hi : option nat).  (* (X{lo,hi}) *)

(** Membership of a character in a set; with [re.I] a character matches
    when one of its case variants is in the set. *)
Definition in_set (cs : CharSet) (c : ascii) : bool :=
  match cs with
  | Range lo hi => PyStr.in_range lo hi c
  | OneOf l => PyStr.mem c l
  | Whitespace => PyStr.isspace c
  end.

Definition class_match (ignorecase : bool) (cs : CharSet) (c : ascii) : bool :=
  in_set cs c
  || (ignorecase
      && (in_set cs (PyStr.lower_char c) || in_set cs (PyStr.upper_char c))).

(** Length of the longest prefix of [s] made of characters satisfying [p]. *)
Fixpoint span (p : ascii -> bool) (s : str) : nat :=
  match s with
  | c :: s' => if p c then S (span p s') else 0
  | [] => 0
  end.

(** The repetition counts a greedy quantifier tries, longest first. *)
Definition greedy_counts (lo : nat) (hi : option nat) (avail : nat) : list nat :=
  let top := match hi with Some h => Nat.min h avail | None => avail end in
  rev (seq lo (S top - lo)).

Fixpoint first_some {A B : Type} (f : A -> option B) (l : list A) : option B :=
  match l with
  | [] => None
  | x :: l' => match f x with Some r => Some r | None => first_some f l' end
  end.

(** The character just before the current position, after [taken] has
    been consumed. *)
Definition last_char (prev : option ascii) (taken : str) : option ascii :=
  match rev taken with
  | c :: _ => Some c
  | [] => prev
  end.

(** Backtracking match of the node sequence [p] at the start of [s];
    [prev] is the character before [s] in the subject string.  The result
    is the list of captured groups. *)
Fixpoint match_here (ignorecase : bool) (p : list Node)
         (prev : option ascii) (s : str) : option (list str) :=
  match p with
  | [] => Some []
  | NotPrecededBy cs :: p' =>
      match prev with
      | Some c =>
          if class_match ignorecase cs c then None
          else match_here ignorecase p' prev s
      | None => match_here ignorecase p' prev s
      end
  | Repeat cs lo hi :: p' =>
      first_some
        (fun k => match_here ignorecase p'
                    (last_char prev (firstn k s)) (skipn k s))
        (greedy_counts lo hi (span (class_match ignorecase cs) s))
  | Capture cs lo hi :: p' =>
      first_some
        (fun k => option_map (cons (firstn k s))
                    (match_here ignorecase p'
                       (last_char prev (firstn k s)) (skipn k s)))
        (greedy_counts lo hi (span (class_match ignorecase cs) s))
  end.

(** [pattern.search(s)]: the match at the leftmost position that has one. *)
Fixpoint search_from (ignorecase : bool) (p : list Node)
         (prev : option ascii) (s : str) : option (list str) :=
  match match_here ignorecase p prev s with
  | Some g => Some g
  | None =>
      match s with
      | [] => None
      | c :: s' => search_from ignorecase p (Some c) s'
      end
  end.

Definition search (ignorecase : bool) (p : list Node) (s : str) :
  option (list str) :=
  search_from ignorecase p None s.

End Re.

(** ** Configuration and constants *)

(** [re.compile(r"(?<![a-z])([a-z]{4,6})\s*[\-_\.]*\s*([0-9]{3,6})", re.I)] *)
Definition PAT_JAV_ID : list Re.Node :=
  [ Re.NotPrecededBy (Re.Range "a" "z");
    Re.Capture (Re.Range "a" "z") 4 (Some 6);
    Re.Repeat Re.Whitespace 0 None;
    Re.Repeat (Re.OneOf ["-"; "_"; "."]) 0 None;
    Re.Repeat Re.Whitespace 0 None;
    Re.Capture (Re.Range "0" "9") 3 (Some 6) ].

Inductive JavScrapers := JAVDATABASE | R18DEV | JAVLIBRARY.

(** [str(scraper)] of the [StrEnum]. *)
Definition JavScrapers_str (s : JavScrapers) : str :=
  match s with
  | JAVDATABASE => lit "javdatabase"
  | R18DEV => lit "r18d"
  | JAVLIBRARY => lit "javlibrary"
  end.

(** [iter(JavScrapers)]: the members in definition order. *)
Definition JavScrapers_members : list JavScrapers :=
  [JAVDATABASE; R18DEV; JAVLIBRARY].

(** ** [JavId] *)

Record JavId := { studio_code : str; scene_code : str }.

Module JavIdM.

Definition post_init (self : JavId) : JavId :=
  let studio := PyStr.upper (PyStr.strip (studio_code self)) in
  let scene := PyStr.zfill 3 (PyStr.lstrip ["0"] (PyStr.strip (scene_code self))) in
  {| studio_code := if PyStr.eqb studio (lit "DSVR") then lit "3DSVR" else studio;
     scene_code := scene |}.

(** The dataclass constructor: the generated [__init__] followed by
    [__post_init__]. *)
Definition new (studio scene : str) : JavId :=
  post_init {| studio_code := studio; scene_code := scene |}.

Definition as_content_id (self : JavId) : str :=
  let studio :=
    if PyStr.eqb (studio_code self) (lit "3DSVR") then lit "13DSVR"
    else studio_code self in
  PyStr.upper studio
    ++ PyStr.zfill 5 (PyStr.lstrip ["0"] (PyStr.upper (scene_code self))).

Definition as_dvd_id (self : JavId) : str :=
  let scene :=
    if PyStr.eqb (studio_code self) (lit "3DSVR")
    then PyStr.zfill 4 (PyStr.lstrip ["0"] (PyStr.upper (scene_code self)))
    else PyStr.zfill 3 (PyStr.lstrip ["0"] (PyStr.upper (scene_code self))) in
  PyStr.upper (studio_code self) ++ lit "-" ++ scene.

Definition id_formats (self : JavId) : list str :=
  [as_content_id self; as_dvd_id self].

(** [JavId.from_string]; [None] stands for the raised [ValueError]. *)
Definition from_string (jav_id : str) : option JavId :=
  match Re.search true PAT_JAV_ID jav_id with
  | Some [g1; g2] => Some (new (PyStr.upper g1) (PyStr.lstrip ["0"] g2))
  | _ => None
  end.

(** [__str__] *)
Definition to_str (self : JavId) : str := as_dvd_id self.

(** [__hash__], over the string hash [hash_str] of the interpreter. *)
Definition hash (hash_str : str -> Z) (self : JavId) : Z :=
  hash_str (to_str self).

(** The [__eq__] generated by [@dataclass]: field-wise comparison. *)
Definition eqb (a b : JavId) : bool :=
  PyStr.eqb (studio_code a) (studio_code b)
  && PyStr.eqb (scene_code a) (scene_code b).

End JavIdM.

(** ** Records of the XBVR API, and a Python [dict] keyed by [JavId] *)

(** A file info dict; [file_id] is its ["id"] entry. *)
Record FileInfo := { file_id : Z; filename : str }.

(** A scene info dict, with the entries the script reads. *)
Record SceneInfo := { scene_id : str; title : str }.

(** A [dict] in insertion order.  Keys are compared with [JavId.__eq__];
    [JavId.__hash__] is a function of the fields that [__eq__] compares, so
    equal keys land in the same bucket. *)
Module PyDict.

Definition t (V : Type) := list (JavId * V).

Fixpoint get {V : Type} (k : JavId) (d : t V) : option V :=
  match d with
  | [] => None
  | (k', v) :: d' => if JavIdM.eqb k' k then Some v else get k d'
  end.

(** [k in d] *)
Definition contains {V : Type} (k : JavId) (d : t V) : bool :=
  match get k d with Some _ => true | None => false end.

(** [d[k] = v]: an existing key keeps its place, a new one goes last. *)
Fixpoint set {V : Type} (k : JavId) (v : V) (d : t V) : t V :=
  match d with
  | [] => [(k, v)]
  | (k', v') :: d' =>
      if JavIdM.eqb k' k then (k', v) :: d' else (k', v') :: set k v d'
  end.

(** [d[k].append(x)] for a key that is present. *)
Fixpoint append {V : Type} (k : JavId) (x : V) (d : t (list V)) : t (list V) :=
  match d with
  | [] => []
  | (k', v) :: d' =>
      if JavIdM.eqb k' k then (k', v ++ [x]) :: d' else (k', v) :: append k x d'
  end.

Definition keys {V : Type} (d : t V) : list JavId := map fst d.
Definition values {V : Type} (d : t V) : list V := map snd d.

End PyDict.

(** One iteration of the loop of [filter_unmatched_files_by_jav_id]. *)
Definition filter_step (unmatched_by_jav_id : PyDict.t (list FileInfo))
           (f : FileInfo) : PyDict.t (list FileInfo) :=
  match JavIdM.from_string (filename f) with
  | None => unmatched_by_jav_id                       (* except ValueError: continue *)
  | Some jav_id =>
      if PyStr.startswith (PyStr.lower (studio_code jav_id)) (lit "czech")
      then unmatched_by_jav_id                        (* continue *)
      else
        let d :=
          if negb (PyDict.contains jav_id unmatched_by_jav_id)
          then PyDict.set jav_id [] unmatched_by_jav_id
          else unmatched_by_jav_id in
        PyDict.append jav_id f d
  end.

Definition filter_unmatched_files_by_jav_id (unmatched_files_info : list FileInfo)
  : PyDict.t (list FileInfo) :=
  fold_left filter_step unmatched_files_info [].

Fixpoint get_scene_for_jav_id (jav_id : JavId) (potential_scenes : list SceneInfo)
  : option SceneInfo :=
  match potential_scenes with
  | [] => None
  | scene_info :: rest =>
      match JavIdM.from_string (scene_id scene_info) with
      | None => None                                   (* except ValueError: return None *)
      | Some sid =>
          if JavIdM.eqb sid jav_id then Some scene_info
          else get_scene_for_jav_id jav_id rest
      end
  end.

(** ** The HTTP session, console and clock *)

Record Config := { XBVR_SERVER_ADDRESS : str; JAV_SCRAPE_TIMEOUT : Z }.

Definition default_config : Config :=
  {| XBVR_SERVER_ADDRESS := lit "http://localhost:9999"; JAV_SCRAPE_TIMEOUT := 12 |}.

Definition FILE_LIST_URL (cfg : Config) : str :=
  XBVR_SERVER_ADDRESS cfg ++ lit "/api/files/list".
Definition FILE_MATCH_URL (cfg : Config) : str :=
  XBVR_SERVER_ADDRESS cfg ++ lit "/api/files/match".
Definition SCENE_SCRAPE_JAV_URL (cfg : Config) : str :=
  XBVR_SERVER_ADDRESS cfg ++ lit "/api/task/scrape-javr".
Definition SCENE_SEARCH_URL (cfg : Config) : str :=
  XBVR_SERVER_ADDRESS cfg ++ lit "/api/scene/search".

Inductive Payload :=
| UnmatchedFilter                              (* the fixed file-list filter *)
| SearchParams (q : str)                       (* params={"q": q} *)
| ScrapeJson (q s : str)                       (* json={"q": q, "s": s} *)
| MatchJson (file_id : Z) (scene_id : str).    (* json={"file_id":.., "scene_id":..} *)

Inductive Request :=
| GET (url : str) (params : Payload)
| POST (url : str) (json : Payload).

(** A response, with the parts of the JSON body that the script reads. *)
Record Response := {
  status_code : Z;
  content : str;
  json_files : list FileInfo;       (* resp.json() of the file list *)
  json_results : Z;                 (* resp.json()["results"] *)
  json_scenes : list SceneInfo      (* resp.json()["scenes"] *)
}.

Inductive Message :=
| MsgBlank
| MsgGetting
| MsgListFailed (e : str)
| MsgCheckConfig
| MsgFound (ids files : nat)
| MsgSearching (jav_id : JavId) (files : nat)
| MsgAttempt (scraper : JavScrapers)
| MsgNotFound
| MsgMatching (scene_id title30 : str)
| MsgComplete (good bad : nat).

Inductive Event :=
| Http (r : Request) (resp : Response)   (* a request and the answer it got *)
| Sleep (seconds : Z)
| Print (m : Message).

Inductive Exn :=
| PyException (msg : str)
| SystemExit (code : Z).

Section Script.

(** The XBVR server: a state and the way it answers a request. *)
Context {W : Type}.
Variable respond : Request -> W -> Response * W.

(** A computation starts in a server state and ends with a result or a
    raised exception, the new server state and the events it produced. *)
Definition M (A : Type) : Type := W -> (Exn + A) * W * list Event.

Definition ret {A : Type} (a : A) : M A := fun w => (inr a, w, []).

Definition bind {A B : Type} (m : M A) (f : A -> M B) : M B :=
  fun w =>
    match m w with
    | (inl e, w', t) => (inl e, w', t)
    | (inr a, w', t) =>
        match f a w' with (r, w'', t') => (r, w'', t ++ t') end
    end.

Definition raise {A : Type} (e : Exn) : M A := fun w => (inl e, w, []).

Definition emit (ev : Event) : M unit := fun w => (inr tt, w, [ev]).

Definition request (r : Request) : M Response :=
  fun w => match respond r w with (resp, w') => (inr resp, w', [Http r resp]) end.

(** [try: m except Exception as e: handler(e)]; [SystemExit] is not an
    [Exception] and passes through. *)
Definition try_except {A : Type} (m : M A) (handler : str -> M A) : M A :=
  fun w =>
    match m w with
    | (inl (PyException msg), w', t) =>
        match handler msg w' with (r, w'', t') => (r, w'', t ++ t') end
    | other => other
    end.

(** [for x in l: s = body(x, s)] *)
Fixpoint for_each {A S : Type} (l : list A) (body : A -> S -> M S) (s : S) : M S :=
  match l with
  | [] => ret s
  | x :: l' => bind (body x s) (for_each l' body)
  end.

Local Notation "x <- m ;; k" := (bind m (fun x => k))
  (at level 61, m at next level, right associativity).
Local Notation "m ;;; k" := (bind m (fun _ => k))
  (at level 61, right associativity).

Variable cfg : Config.

Definition get_unmatched_files_list : M (list FileInfo) :=
  resp <- request (POST (FILE_LIST_URL cfg) UnmatchedFilter) ;;
  if negb (Z.eqb (status_code resp) 200) then raise (PyException (content resp))
  else ret (json_files resp).

Definition get_scenes_for_id (scene_id : str) : M (list SceneInfo) :=
  resp <- request (GET (SCENE_SEARCH_URL cfg)
                       (SearchParams (lit "+id:" ++ ["034"] ++ scene_id ++ ["034"]))) ;;
  if negb (Z.eqb (status_code resp) 200) then raise (PyException (content resp))
  else if Z.eqb (json_results resp) 0 then ret []
  else ret (json_scenes resp).

Definition scrape_jav_scene (jav_id : JavId) (scraper : JavScrapers) : M unit :=
  let scrape_id :=
    match scraper with
    | R18DEV => JavIdM.as_content_id jav_id
    | _ => JavIdM.as_dvd_id jav_id
    end in
  resp <- request (POST (SCENE_SCRAPE_JAV_URL cfg)
                        (ScrapeJson scrape_id (JavScrapers_str scraper))) ;;
  if negb (Z.eqb (status_code resp) 200) then raise (PyException (content resp))
  else emit (Sleep 10).

Definition match_file_to_scene (file_info : FileInfo) (scene_info : SceneInfo)
  : M unit :=
  resp <- request (POST (FILE_MATCH_URL cfg)
                        (MatchJson (file_id file_info) (scene_id scene_info))) ;;
  if negb (Z.eqb (status_code resp) 200) then raise (PyException (content resp))
  else ret tt.

(** The lookup before the [while] loop: every format is searched, then
    the collected scenes are checked once. *)
Definition first_lookup (jav_id : JavId) : M (option SceneInfo) :=
  potential_scenes <-
    for_each (JavIdM.id_formats jav_id)
      (fun jid acc => scenes <- get_scenes_for_id jid ;; ret (acc ++ scenes)) [] ;;
  ret (get_scene_for_jav_id jav_id potential_scenes).

(** The lookup inside the [while] loop: [jav_scene_info] is assigned
    after each format; [before] is its value on entry. *)
Definition loop_lookup (jav_id : JavId) (before : option SceneInfo)
  : M (option SceneInfo) :=
  r <- for_each (JavIdM.id_formats jav_id)
         (fun jid (st : list SceneInfo * option SceneInfo) =>
            scenes <- get_scenes_for_id jid ;;
            let potential_scenes := fst st ++ scenes in
            ret (potential_scenes, get_scene_for_jav_id jav_id potential_scenes))
         ([], before) ;;
  ret (snd r).

(** [while not jav_scene_info: jav_scraper = next(jav_scrapers) ...];
    [jav_scrapers] is what the iterator has left. *)
Fixpoint scrape_loop (jav_id : JavId) (jav_scrapers : list JavScrapers)
         (jav_scene_info : option SceneInfo) : M (option SceneInfo) :=
  match jav_scene_info with
  | Some _ => ret jav_scene_info
  | None =>
      match jav_scrapers with
      | [] => ret jav_scene_info                   (* StopIteration: break *)
      | jav_scraper :: rest =>
          emit (Print (MsgAttempt jav_scraper)) ;;;
          scrape_jav_scene jav_id jav_scraper ;;;
          info <- loop_lookup jav_id jav_scene_info ;;
          scrape_loop jav_id rest info
      end
  end.

(** The body of the main [for] loop; the state is
    [(count_good, count_bad)]. *)
Definition process_jav_id (item : JavId * list FileInfo) (counts : nat * nat)
  : M (nat * nat) :=
  let jav_id := fst item in
  let file_infos := snd item in
  emit (Print MsgBlank) ;;;
  emit (Print (MsgSearching jav_id (length file_infos))) ;;;
  found <- first_lookup jav_id ;;
  jav_scene_info <- scrape_loop jav_id JavScrapers_members found ;;
  match jav_scene_info with
  | None =>
      emit (Print MsgNotFound) ;;;
      ret (fst counts, S (snd counts))             (* count_bad += 1; continue *)
  | Some scene =>
      emit (Print (MsgMatching (scene_id scene) (firstn 30 (title scene)))) ;;;
      for_each file_infos (fun file_info _ => match_file_to_scene file_info scene) tt ;;;
      ret (S (fst counts), snd counts)
  end.

(** The [__main__] block. *)
Definition main : M (nat * nat) :=
  emit (Print MsgGetting) ;;;
  unmatched_files_info <-
    try_except get_unmatched_files_list
      (fun e =>
         emit (Print (MsgListFailed e)) ;;;
         emit (Print MsgCheckConfig) ;;;
         raise (SystemExit 1)) ;;
  let unmatched_by_jav_id := filter_unmatched_files_by_jav_id unmatched_files_info in
  emit (Print (MsgFound (length unmatched_by_jav_id)
                 (list_sum (map (@List.length FileInfo) (PyDict.values unmatched_by_jav_id))))) ;;;
  counts <- for_each unmatched_by_jav_id process_jav_id (0, 0) ;;
  emit (Print MsgBlank) ;;;
  emit (Print (MsgComplete (fst counts) (snd counts))) ;;;
  ret counts.

End Script.

Arguments main {W} respond cfg.
Arguments process_jav_id {W} respond cfg.
Arguments scrape_jav_scene {W} respond cfg.

(** Projections of the outcome of a computation. *)
Definition result_of {W A : Type} (o : (Exn + A) * W * list Event) : Exn + A :=
  fst (fst o).
Definition trace_of {W A : Type} (o : (Exn + A) * W * list Event) : list Event :=
  snd o.

(** Observations on a trace. *)
Fixpoint scrape_requests (t : list Event) : list (str * str) :=
  match t with
  | [] => []
  | Http (POST _ (ScrapeJson q s)) _ :: t' => (q, s) :: scrape_requests t'
  | _ :: t' => scrape_requests t'
  end.

Fixpoint http_requests (t : list Event) : list Request :=
  match t with
  | [] => []
  | Http r _ :: t' => r :: http_requests t'
  | _ :: t' => http_requests t'
  end.

Fixpoint sleeps (t : list Event) : list Z :=
  match t with
  | [] => []
  | Sleep n :: t' => n :: sleeps t'
  | _ :: t' => sleeps t'
  end.

Fixpoint search_queries (t : list Event) : list str :=
  match t with
  | [] => []
  | Http (GET _ (SearchParams q)) _ :: t' => q :: search_queries t'
  | _ :: t' => search_queries t'
  end.

Definition set_timeout (cfg : Config) (seconds : Z) : Config :=
  {| XBVR_SERVER_ADDRESS := XBVR_SERVER_ADDRESS cfg; JAV_SCRAPE_TIMEOUT := seconds |}.

(** [lower(studio_code).startswith("czech")] *)
Definition is_czech (jav_id : JavId) : bool :=
  PyStr.startswith (PyStr.lower (studio_code jav_id)) (lit "czech").

(** The file's name parses to an identifier equal to [k]. *)
Definition parses_to (k : JavId) (f : FileInfo) : bool :=
  match JavIdM.from_string (filename f) with
  | Some j => JavIdM.eqb j k
  | None => false
  end.

(** ** Vocabulary of the properties *)

Definition all_ascii : list ascii := map ascii_of_nat (seq 0 256).

Definition is_letter (c : ascii) : bool := Re.class_match true (Re.Range "a" "z") c.
Definition is_digit (c : ascii) : bool := Re.class_match true (Re.Range "0" "9") c.
Definition is_ws (c : ascii) : bool := Re.class_match true Re.Whitespace c.
Definition is_sep (c : ascii) : bool :=
  Re.class_match true (Re.OneOf ["-"; "_"; "."]) c.
Definition is_upper (c : ascii) : bool := PyStr.in_range "A" "Z" c.
Definition is_zero (c : ascii) : bool := PyStr.mem c ["0"].

Definition letters (s : str) : Prop := Forall (fun c => is_letter c = true) s.
Definition uppers (s : str) : Prop := Forall (fun c => is_upper c = true) s.
Definition digits (s : str) : Prop := Forall (fun c => is_digit c = true) s.

Definition no_leading_zero (s : str) : Prop :=
  match s with
  | c :: _ => is_zero c = false
  | [] => True
  end.

Definition top_count (hi : option nat) (avail : nat) : nat :=
  match hi with Some h => Nat.min h avail | None => avail end.

(** A string accepted by [PAT_JAV_ID] at some position yields two groups:
    4 to 6 letters and 3 to 6 digits. *)
Definition groups_ok (gs : list str) : Prop :=
  exists L D,
    gs = [L; D] /\ letters L /\ 4 <= length L <= 6
    /\ digits D /\ 3 <= length D <= 6.

(** The identifier with studio [U] (after the alias rule) and sequence
    number [n]. *)
Definition canon (U n : str) : JavId :=
  {| studio_code := if PyStr.eqb U (lit "DSVR") then lit "3DSVR" else U;
     scene_code := PyStr.zfill 3 n |}.

Record canonical (U n : str) : Prop := {
  can_uppers : uppers U;
  can_len : 4 <= length U <= 6;
  can_digits : digits n;
  can_numlen : length n <= 6;
  can_nlz : no_leading_zero n
}.

(** The entry that grouping gives to the key [k]. *)
Definition group_of (k : JavId) (files : list FileInfo) : option (list FileInfo) :=
  if is_czech k then None
  else match filter (parses_to k) files with
       | [] => None
       | fs => Some fs
       end.

Definition is_file_list (r : Request) : bool :=
  match r with
  | POST _ UnmatchedFilter => true
  | _ => false
  end.

(** An outcome in which a request answered with a status other than 200
    is the last event, and the computation ended with the exception that
    carries the answer's content. *)
Definition fail_fast_outcome {W A : Type} (o : (Exn + A) * W * list Event) : Prop :=
  forall r resp,
    In (Http r resp) (trace_of o) ->
    is_file_list r = false
    /\ (status_code resp <> 200%Z ->
        result_of o = inl (PyException (content resp))
        /\ last (trace_of o) (Print MsgBlank) = Http r resp).

Definition fail_fast {W A : Type} (m : @M W A) : Prop :=
  forall w, fail_fast_outcome (m w).

(** What [__main__] does once the list of unmatched files is there. *)
Definition main_after_list {W : Type} (respond : Request -> W -> Response * W)
           (cfg : Config) (unmatched_files_info : list FileInfo) : @M W (nat * nat) :=
  let unmatched_by_jav_id := filter_unmatched_files_by_jav_id unmatched_files_info in
  bind (emit (Print (MsgFound (length unmatched_by_jav_id)
                 (list_sum (map (@List.length FileInfo) (PyDict.values unmatched_by_jav_id))))))
    (fun _ =>
       bind (for_each unmatched_by_jav_id (process_jav_id respond cfg) (0, 0))
         (fun counts =>
            bind (emit (Print MsgBlank))
              (fun _ => bind (emit (Print (MsgComplete (fst counts) (snd counts))))
                          (fun _ => ret counts)))).

(** The scene's id does not parse to [jav_id]. *)
Definition no_match (jav_id : JavId) (sc : SceneInfo) : Prop :=
  JavIdM.from_string (scene_id sc) <> Some jav_id.

(** A trace without scrape request and without wait. *)
Definition quiet (t : list Event) : Prop :=
  scrape_requests t = [] /\ sleeps t = [] /\ ~ In (Print MsgNotFound) t.

(** The query that [scrape_jav_scene] sends to a provider. *)
Definition scrape_query (jav_id : JavId) (scraper : JavScrapers) : str * str :=
  (match scraper with
   | R18DEV => JavIdM.as_content_id jav_id
   | _ => JavIdM.as_dvd_id jav_id
   end, JavScrapers_str scraper).

(** ** Servers used as concrete inputs *)

Definition empty_response (status : Z) (text : str) : Response :=
  {| status_code := status; content := text;
     json_files := []; json_results := 0; json_scenes := [] |}.

(** A server that lists two unmatched files and refuses everything else. *)
Definition refusing_server (r : Request) (w : unit) : Response * unit :=
  match r with
  | POST _ UnmatchedFilter =>
      ({| status_code := 200; content := [];
          json_files := [ {| file_id := 1; filename := lit "ABCD-001.mp4" |};
                          {| file_id := 2; filename := lit "WXYZ-002.mp4" |} ];
          json_results := 0; json_scenes := [] |}, w)
  | _ => (empty_response 500 (lit "Internal Server Error"), w)
  end.

(** A server that answers every request with status 200 and knows no scene. *)
Definition blank_server (r : Request) (w : unit) : Response * unit :=
  (empty_response 200 [], w).

Definition search_request (cfg : Config) (scene_id : str) : Request :=
  GET (SCENE_SEARCH_URL cfg)
      (SearchParams (lit "+id:" ++ ["034"] ++ scene_id ++ ["034"])).

(** The string [s] contains what [PAT_JAV_ID] looks for: 4 to 6 letters
    [L] that do not follow a letter, then whitespace [m1], separators [m2]
    and whitespace [m3], each possibly empty, then 3 to 6 digits [D]. *)
Definition not_after_letter (pre : str) : Prop :=
  match rev pre with
  | c :: _ => is_letter c = false
  | [] => True
  end.

Definition contains_jav_id (s : str) : Prop :=
  exists pre L m1 m2 m3 D post,
    s = pre ++ L ++ m1 ++ m2 ++ m3 ++ D ++ post
    /\ not_after_letter pre
    /\ letters L /\ 4 <= length L <= 6
    /\ Forall (fun c => is_ws c = true) m1
    /\ Forall (fun c => is_sep c = true) m2
    /\ Forall (fun c => is_ws c = true) m3
    /\ digits D /\ 3 <= length D <= 6.

(** The file's name parses to an identifier that is not filtered out. *)
Definition groupable (f : FileInfo) : bool :=
  match JavIdM.from_string (filename f) with
  | Some j => negb (is_czech j)
  | None => false
  end.

(** The number of files in the groups of a dictionary. *)
Definition total_files (d : PyDict.t (list FileInfo)) : nat :=
  list_sum (map (@List.length FileInfo) (PyDict.values d)).

(** The server state in which a computation ends. *)
Definition state_of {W A : Type} (o : (Exn + A) * W * list Event) : W :=
  snd (fst o).

(** The file match requests of a trace: file id and scene id. *)
Fixpoint match_requests (t : list Event) : list (Z * str) :=
  match t with
  | [] => []
  | Http (POST _ (MatchJson file_id scene_id)) _ :: t' =>
      (file_id, scene_id) :: match_requests t'
  | _ :: t' => match_requests t'
  end.

(** The request of [get_unmatched_files_list]. *)
Definition file_list_request (cfg : Config) : Request :=
  POST (FILE_LIST_URL cfg) UnmatchedFilter.

(** The event of a scene search. *)
Definition is_search (e : Event) : Prop :=
  exists url q resp, e = Http (GET url (SearchParams q)) resp.

(** [l] is the beginning of [q]. *)
Definition is_prefix {A : Type} (l q : list A) : Prop :=
  exists rest, q = l ++ rest.

(** The match request that binds the file [f] to the scene [sc]. *)
Definition match_query (sc : SceneInfo) (f : FileInfo) : Z * str :=
  (file_id f, scene_id sc).

(** What is observed on the scrape loop for [jav_id]: scrape requests
    in the order of [scrapers], waits of 10 seconds, one at most per
    request, and no match request. *)
Definition ordered (jav_id : JavId) (scrapers : list JavScrapers) (t : list Event)
  : Prop :=
  is_prefix (scrape_requests t) (map (scrape_query jav_id) scrapers)
  /\ Forall (fun n => n = 10%Z) (sleeps t)
  /\ length (sleeps t) <= length (scrape_requests t)
  /\ match_requests t = [].

(** A server that lists one unmatched file, knows the scene ["ABCD-123"]
    and accepts the match. *)
Definition matching_server (r : Request) (w : unit) : Response * unit :=
  match r with
  | POST _ UnmatchedFilter =>
      ({| status_code := 200; content := [];
          json_files := [ {| file_id := 7; filename := lit "abcd-123.mp4" |} ];
          json_results := 0; json_scenes := [] |}, w)
  | GET _ _ =>
      ({| status_code := 200; content := []; json_files := [];
          json_results := 1;
          json_scenes := [ {| scene_id := lit "ABCD-123"; title := lit "Scene" |} ] |}, w)
  | _ => (empty_response 200 [], w)
  end.

(** A server that lists three unmatched files from which no identifier is
    kept: two names hold no identifier and the third gives a Czech one.
    Every other request is refused. *)
Definition unrelated_files : list FileInfo :=
  [ {| file_id := 1; filename := lit "randomfile.mp4" |};
    {| file_id := 2; filename := lit "Czech 1234 scene.mp4" |};
    {| file_id := 3; filename := lit "holiday 2024.mov" |} ].

Definition unrelated_server (r : Request) (w : unit) : Response * unit :=
  match r with
  | POST _ UnmatchedFilter =>
      ({| status_code := 200; content := []; json_files := unrelated_files;
          json_results := 0; json_scenes := [] |}, w)
  | _ => (empty_response 500 (lit "Internal Server Error"), w)
  end.

(** * Properties *)

(** ** Strings and characters *)

Lemma forall_ascii (P : ascii -> bool) :
  forallb P all_ascii = true -> forall c, P c = true.
Proof.
  intros H c. rewrite forallb_forall in H. apply H.
  unfold all_ascii. rewrite <- (ascii_nat_embedding c).
  apply in_map, in_seq. pose proof (nat_ascii_bounded c). lia.
Qed.

Ltac ascii_exhaust :=
  match goal with
  | |- forall c : ascii, @?b c = true =>
      apply (forall_ascii b); vm_compute; reflexivity
  end.

Lemma implb_elim (a b : bool) : implb a b = true -> a = true -> b = true.
Proof. destruct a, b; simpl; congruence. Qed.

(** What the script relies on for a letter matched by [[a-z]] under [re.I]. *)
Lemma letter_table :
  forall c, implb (is_letter c) (is_upper (PyStr.upper_char c)) = true.
Proof. ascii_exhaust. Qed.

(** An upper-case letter is fixed by [upper], and is in no other class. *)
Lemma upper_table :
  forall c,
    implb (is_upper c)
      (Ascii.eqb (PyStr.upper_char c) c && is_letter c
       && negb (PyStr.isspace c) && negb (is_digit c) && negb (is_ws c)
       && negb (is_sep c) && negb (is_zero c) && negb (Ascii.eqb c "-")
       && negb (Ascii.eqb c "3")) = true.
Proof. ascii_exhaust. Qed.

(** A digit is fixed by [upper], and is in no other class. *)
Lemma digit_table :
  forall c,
    implb (is_digit c)
      (Ascii.eqb (PyStr.upper_char c) c && negb (is_letter c)
       && negb (PyStr.isspace c) && negb (is_ws c) && negb (is_sep c)
       && negb (PyStr.is_sign c)) = true.
Proof. ascii_exhaust. Qed.

(** [upper] moves no character onto or off ["0"], ["+"] and ["-"]. *)
Lemma upper_char_table :
  forall c,
    Bool.eqb (is_zero (PyStr.upper_char c)) (is_zero c)
    && Bool.eqb (PyStr.is_sign (PyStr.upper_char c)) (PyStr.is_sign c)
    && implb (PyStr.is_sign c) (Ascii.eqb (PyStr.upper_char c) c)
    && implb (PyStr.is_sign c) (negb (is_zero c)) = true.
Proof. ascii_exhaust. Qed.

(** The sharp s is no letter of [[a-z]], no digit and no sign. *)
Lemma sharp_s_table :
  forall c,
    implb (is_letter c || is_upper c || is_digit c || PyStr.is_sign c || is_zero c)
      (negb (Ascii.eqb c "223")) = true.
Proof. ascii_exhaust. Qed.

Section StringLemmas.

Import PyStr.

Lemma eqb_true_iff (a b : str) : PyStr.eqb a b = true <-> a = b.
Proof.
  unfold PyStr.eqb. destruct (list_eq_dec ascii_dec a b); split; congruence.
Qed.

Lemma eqb_refl (a : str) : PyStr.eqb a a = true.
Proof. apply eqb_true_iff. reflexivity. Qed.

Lemma eqb_false_iff (a b : str) : PyStr.eqb a b = false <-> a <> b.
Proof.
  unfold PyStr.eqb. destruct (list_eq_dec ascii_dec a b); split; congruence.
Qed.

Lemma dropwhile_length p s : length (dropwhile p s) <= length s.
Proof. induction s as [|c s IH]; simpl; [lia|]. destruct (p c); simpl; lia. Qed.

Lemma dropwhile_head p s :
  match dropwhile p s with c :: _ => p c = false | [] => True end.
Proof.
  induction s as [|c s IH]; simpl; [exact I|].
  destruct (p c) eqn:E; simpl; auto.
Qed.

Lemma dropwhile_id p s :
  match s with c :: _ => p c = false | [] => True end -> dropwhile p s = s.
Proof. destruct s as [|c s]; simpl; [reflexivity|]. intros ->. reflexivity. Qed.

Lemma dropwhile_Forall (P : ascii -> Prop) p s :
  Forall P s -> Forall P (dropwhile p s).
Proof.
  induction 1 as [|c s Hc Hs IH]; simpl; [constructor|].
  destruct (p c); [exact IH | constructor; assumption].
Qed.

Lemma dropwhile_repeat p c k s :
  p c = true -> dropwhile p (repeat c k ++ s) = dropwhile p s.
Proof. intros Hc. induction k; simpl; [reflexivity|]. rewrite Hc. exact IHk. Qed.

Lemma lstrip_no_leading_zero s : no_leading_zero (lstrip ["0"] s).
Proof. exact (dropwhile_head (fun c => mem c ["0"]) s). Qed.

Lemma lstrip_id s : no_leading_zero s -> lstrip ["0"] s = s.
Proof. intros H. apply dropwhile_id. destruct s; exact H. Qed.

Lemma strip_id s :
  Forall (fun c => isspace c = false) s -> strip s = s.
Proof.
  intros H. unfold strip.
  rewrite (dropwhile_id isspace s) by (destruct H; auto).
  assert (Hr : Forall (fun c => isspace c = false) (rev s)).
  { apply Forall_forall. intros c Hc. rewrite <- in_rev in Hc.
    rewrite Forall_forall in H. auto. }
  rewrite (dropwhile_id isspace (rev s)) by (destruct Hr; auto).
  apply rev_involutive.
Qed.

Lemma upper_cons c s : upper (c :: s) = upper_chars c ++ upper s.
Proof. reflexivity. Qed.

Lemma upper_app a b : upper (a ++ b) = upper a ++ upper b.
Proof. apply flat_map_app. Qed.

(** Away from the sharp s, [upper] maps character by character. *)
Lemma upper_chars_plain c :
  Ascii.eqb c "223" = false -> upper_chars c = [upper_char c].
Proof. unfold upper_chars. intros ->. reflexivity. Qed.

Lemma upper_plain s :
  Forall (fun c => Ascii.eqb c "223" = false) s -> upper s = map upper_char s.
Proof.
  induction 1 as [|c s Hc Hs IH]; [reflexivity|].
  rewrite upper_cons, (upper_chars_plain c Hc), IH. reflexivity.
Qed.

Lemma class_plain c :
  is_letter c || is_upper c || is_digit c || is_sign c || is_zero c = true ->
  Ascii.eqb c "223" = false.
Proof.
  intros H. apply negb_true_iff. exact (implb_elim _ _ (sharp_s_table c) H).
Qed.

Lemma letters_plain s :
  letters s -> Forall (fun c => Ascii.eqb c "223" = false) s.
Proof.
  apply Forall_impl. intros c Hc. apply class_plain. rewrite Hc. reflexivity.
Qed.

Lemma uppers_plain s :
  uppers s -> Forall (fun c => Ascii.eqb c "223" = false) s.
Proof.
  apply Forall_impl. intros c Hc. apply class_plain. rewrite Hc.
  rewrite !orb_true_r. reflexivity.
Qed.

Lemma digits_plain s :
  digits s -> Forall (fun c => Ascii.eqb c "223" = false) s.
Proof.
  apply Forall_impl. intros c Hc. apply class_plain. rewrite Hc.
  rewrite !orb_true_r. reflexivity.
Qed.

(** [upper] never shortens a string and at most doubles it. *)
Lemma upper_length_bounds s :
  length s <= length (upper s) <= 2 * length s.
Proof.
  induction s as [|c s IH]; [simpl; lia|].
  rewrite upper_cons, length_app. cbn [List.length].
  unfold upper_chars. destruct (Ascii.eqb c "223"); cbn [List.length]; lia.
Qed.

Lemma upper_length s : letters s -> length (upper s) = length s.
Proof.
  intros H. rewrite (upper_plain s (letters_plain s H)). apply length_map.
Qed.

Lemma upper_uppers s : uppers s -> upper s = s.
Proof.
  intros H. rewrite (upper_plain s (uppers_plain s H)).
  induction H as [|c s Hc Hs IH]; simpl; [reflexivity|].
  rewrite IH. f_equal.
  pose proof (implb_elim _ _ (upper_table c) Hc) as T.
  repeat (apply andb_prop in T; destruct T as [T ?]).
  apply Ascii.eqb_eq. assumption.
Qed.

Lemma upper_letters s : letters s -> uppers (upper s).
Proof.
  intros H. rewrite (upper_plain s (letters_plain s H)).
  induction H as [|c s Hc Hs IH]; simpl; constructor; auto.
  exact (implb_elim _ _ (letter_table c) Hc).
Qed.

Lemma upper_digits s : digits s -> upper s = s.
Proof.
  intros H. rewrite (upper_plain s (digits_plain s H)).
  induction H as [|c s Hc Hs IH]; simpl; [reflexivity|].
  rewrite IH. f_equal.
  pose proof (implb_elim _ _ (digit_table c) Hc) as T.
  repeat (apply andb_prop in T; destruct T as [T ?]).
  apply Ascii.eqb_eq. assumption.
Qed.

Lemma uppers_facts c :
  is_upper c = true ->
  is_letter c = true /\ isspace c = false /\ is_digit c = false
  /\ is_ws c = false /\ is_sep c = false /\ is_zero c = false
  /\ c <> "-" /\ c <> "3".
Proof.
  intros Hc. pose proof (implb_elim _ _ (upper_table c) Hc) as T.
  repeat (apply andb_prop in T; destruct T as [T ?]).
  repeat match goal with
         | H : negb _ = true |- _ => apply negb_true_iff in H
         | H : Ascii.eqb _ _ = false |- _ => apply Ascii.eqb_neq in H
         end.
  repeat split; assumption.
Qed.

Lemma digit_facts c :
  is_digit c = true ->
  is_letter c = false /\ isspace c = false /\ is_ws c = false
  /\ is_sep c = false /\ is_sign c = false.
Proof.
  intros Hc. pose proof (implb_elim _ _ (digit_table c) Hc) as T.
  repeat (apply andb_prop in T; destruct T as [T ?]).
  repeat match goal with
         | H : negb _ = true |- _ => apply negb_true_iff in H
         end.
  repeat split; assumption.
Qed.

Lemma upper_char_facts c :
  is_zero (upper_char c) = is_zero c
  /\ is_sign (upper_char c) = is_sign c
  /\ (is_sign c = true -> upper_char c = c)
  /\ (is_sign c = true -> is_zero c = false).
Proof.
  pose proof (upper_char_table c) as T.
  repeat (apply andb_prop in T; destruct T as [T ?]).
  repeat split.
  - apply Bool.eqb_prop. assumption.
  - apply Bool.eqb_prop. assumption.
  - intros Hs. rewrite Hs in *. simpl in *. apply Ascii.eqb_eq. assumption.
  - intros Hs. rewrite Hs in *. simpl in *. apply negb_true_iff. assumption.
Qed.

(** The first character of [upper (c :: s)] is a zero only if [c] is. *)
Lemma upper_chars_head c :
  exists h t, upper_chars c = h :: t /\ is_zero h = is_zero c.
Proof.
  unfold upper_chars. destruct (Ascii.eqb c "223") eqn:E.
  - apply Ascii.eqb_eq in E. subst c. eexists _, _. split; reflexivity.
  - eexists _, _. split; [reflexivity|]. apply upper_char_facts.
Qed.

Lemma upper_chars_sign c : is_sign c = true -> upper_chars c = [c].
Proof.
  intros Hs. rewrite upper_chars_plain.
  - f_equal. apply upper_char_facts. exact Hs.
  - apply class_plain. rewrite Hs. rewrite !orb_true_r. reflexivity.
Qed.

(** [zfill] in one equation: the zeros go after a leading sign. *)
Lemma zfill_eq w s :
  zfill w s =
  match s with
  | [] => repeat "0" w
  | c :: rest =>
      if is_sign c then c :: repeat "0" (w - length s) ++ rest
      else repeat "0" (w - length s) ++ s
  end.
Proof.
  unfold zfill. destruct (Nat.leb w (length s)) eqn:E.
  - apply Nat.leb_le in E.
    replace (w - length s) with 0 by lia.
    destruct s as [|c rest]; simpl in *.
    + replace w with 0 by lia. reflexivity.
    + destruct (is_sign c); reflexivity.
  - destruct s as [|c rest]; simpl; [f_equal; lia | reflexivity].
Qed.

Lemma zfill_digits w s :
  digits s -> zfill w s = repeat "0" (w - length s) ++ s.
Proof.
  intros H. rewrite zfill_eq. destruct H as [|c rest Hc Hr].
  - simpl. rewrite app_nil_r. f_equal. lia.
  - destruct (digit_facts c Hc) as (_ & _ & _ & _ & Hs). rewrite Hs. reflexivity.
Qed.

Lemma upper_repeat_zero k : upper (repeat "0" k) = repeat "0" k.
Proof.
  induction k; [reflexivity|].
  cbn [repeat]. rewrite upper_cons, IHk. reflexivity.
Qed.

Lemma upper_no_leading_zero s : no_leading_zero s -> no_leading_zero (upper s).
Proof.
  destruct s as [|c rest]; simpl; auto.
  destruct (upper_chars_head c) as (h & t & E & Hz).
  fold (upper rest). rewrite E. simpl. unfold is_zero in *. congruence.
Qed.

(** Padding to 3, stripping the zeros and padding again to [k >= 3] is
    padding to [k]. *)
Lemma zfill_lstrip_zfill k m :
  3 <= k -> no_leading_zero m ->
  zfill k (lstrip ["0"] (zfill 3 m)) = zfill k m.
Proof.
  intros Hk Hm. rewrite (zfill_eq 3 m). destruct m as [|c rest].
  - simpl. rewrite !zfill_eq. reflexivity.
  - simpl in Hm. destruct (is_sign c) eqn:Es.
    + rewrite lstrip_id by exact Hm.
      rewrite !zfill_eq. rewrite Es. f_equal.
      rewrite app_assoc, <- repeat_app. f_equal. f_equal.
      cbn [List.length]. rewrite length_app, repeat_length. cbn [List.length]. lia.
    + unfold lstrip. rewrite dropwhile_repeat by reflexivity.
      fold (lstrip ["0"] (c :: rest)). rewrite lstrip_id by exact Hm.
      reflexivity.
Qed.

(** The same with [upper] in between, as [__post_init__] and the two
    formatters compose them; [upper] may lengthen the string by one
    character after a sign, which a width of 4 or more absorbs. *)
Lemma zfill_restore k n :
  4 <= k -> no_leading_zero n ->
  zfill k (lstrip ["0"] (upper (zfill 3 n))) = zfill k (upper n).
Proof.
  intros Hk Hn. rewrite (zfill_eq 3 n). destruct n as [|c rest].
  - rewrite upper_repeat_zero. simpl. rewrite !zfill_eq. reflexivity.
  - pose proof (upper_no_leading_zero (c :: rest) Hn) as Hu.
    pose proof (upper_length_bounds rest) as Hb.
    destruct (is_sign c) eqn:Es.
    + rewrite !upper_cons, upper_app, upper_repeat_zero.
      rewrite (upper_chars_sign c Es). cbn [app].
      rewrite lstrip_id by exact Hn.
      rewrite !zfill_eq. rewrite Es. f_equal.
      rewrite app_assoc, <- repeat_app. f_equal. f_equal.
      cbn [List.length]. rewrite length_app, repeat_length. cbn [List.length].
      lia.
    + rewrite upper_app, upper_repeat_zero.
      unfold lstrip. rewrite dropwhile_repeat by reflexivity.
      fold (lstrip ["0"] (upper (c :: rest))). rewrite lstrip_id by exact Hu.
      reflexivity.
Qed.

End StringLemmas.

(** ** The pattern *)

Section RegexLemmas.

Import Re.

Lemma first_some_In {A B : Type} (f : A -> option B) l r :
  first_some f l = Some r -> exists k, In k l /\ f k = Some r.
Proof.
  induction l as [|x l IH]; simpl; [discriminate|].
  destruct (f x) eqn:E.
  - intros [= <-]. exists x. auto.
  - intros H. destruct (IH H) as (k & Hk & Hf). exists k. auto.
Qed.

Lemma greedy_counts_In lo hi avail k :
  In k (greedy_counts lo hi avail) -> lo <= k <= top_count hi avail.
Proof.
  unfold greedy_counts. fold (top_count hi avail).
  rewrite <- in_rev, in_seq. lia.
Qed.

Lemma greedy_counts_top lo hi avail :
  lo <= top_count hi avail ->
  exists rest, greedy_counts lo hi avail = top_count hi avail :: rest.
Proof.
  unfold greedy_counts. fold (top_count hi avail).
  intros H. set (t := top_count hi avail) in *.
  replace (S t - lo) with (S (t - lo)) by lia.
  rewrite seq_S, rev_app_distr. simpl.
  replace (lo + (t - lo)) with t by lia. eauto.
Qed.

Lemma greedy_counts_empty lo hi avail :
  top_count hi avail < lo -> greedy_counts lo hi avail = [].
Proof.
  unfold greedy_counts. fold (top_count hi avail). intros H.
  replace (S (top_count hi avail) - lo) with 0 by lia. reflexivity.
Qed.

Lemma first_some_top {A : Type} (f : nat -> option A) lo hi avail r :
  lo <= top_count hi avail ->
  f (top_count hi avail) = Some r ->
  first_some f (greedy_counts lo hi avail) = Some r.
Proof.
  intros Hlo Hf. destruct (greedy_counts_top lo hi avail Hlo) as (rest & ->).
  simpl. rewrite Hf. reflexivity.
Qed.

Lemma span_firstn p s k :
  k <= span p s ->
  Forall (fun c => p c = true) (firstn k s) /\ length (firstn k s) = k.
Proof.
  revert k. induction s as [|c s IH]; intros k; simpl.
  - intros H. replace k with 0 by lia. simpl. auto.
  - destruct (p c) eqn:E.
    + destruct k as [|k]; simpl; [auto|]. intros H.
      destruct (IH k) as [HF HL]; [lia|]. split; [constructor; auto | lia].
    + intros H. replace k with 0 by lia. simpl. auto.
Qed.

Lemma span_all p s : Forall (fun c => p c = true) s -> span p s = length s.
Proof. induction 1 as [|c s Hc Hs IH]; simpl; [reflexivity|]. rewrite Hc, IH. reflexivity. Qed.

Lemma span_app_stop p a c b :
  Forall (fun c => p c = true) a -> p c = false ->
  span p (a ++ c :: b) = length a.
Proof.
  intros Ha Hc. induction Ha as [|x a Hx Ha IH]; simpl.
  - rewrite Hc. reflexivity.
  - rewrite Hx, IH. reflexivity.
Qed.

Lemma capture_bounds cs lo h s k :
  In k (greedy_counts lo (Some h) (span (class_match true cs) s)) ->
  Forall (fun c => class_match true cs c = true) (firstn k s)
  /\ lo <= length (firstn k s) <= h.
Proof.
  intros Hin. apply greedy_counts_In in Hin. simpl in Hin.
  destruct (span_firstn (class_match true cs) s k) as [HF HL]; [lia|].
  split; [exact HF | lia].
Qed.

Lemma match_here_sound prev s gs :
  match_here true PAT_JAV_ID prev s = Some gs -> groups_ok gs.
Proof.
  unfold PAT_JAV_ID. cbn [match_here]. intros H.
  assert (H' :
    first_some
      (fun k => option_map (cons (firstn k s))
         (match_here true
            [Repeat Whitespace 0 None; Repeat (OneOf ["-"; "_"; "."]) 0 None;
             Repeat Whitespace 0 None; Capture (Range "0" "9") 3 (Some 6)]
            (last_char prev (firstn k s)) (skipn k s)))
      (greedy_counts 4 (Some 6) (span (class_match true (Range "a" "z")) s))
    = Some gs).
  { destruct prev as [c|]; [destruct (class_match true (Range "a" "z") c)|];
      try discriminate; exact H. }
  clear H. apply first_some_In in H'. destruct H' as (k1 & Hk1 & H).
  destruct (capture_bounds _ _ _ _ _ Hk1) as [HL1 HB1].
  cbn [match_here] in H.
  destruct (first_some _ _) as [gs'|] eqn:E in H; [|discriminate].
  injection H as <-.
  apply first_some_In in E. destruct E as (k2 & _ & E).
  apply first_some_In in E. destruct E as (k3 & _ & E).
  apply first_some_In in E. destruct E as (k4 & _ & E).
  apply first_some_In in E. destruct E as (k5 & Hk5 & E).
  destruct (capture_bounds _ _ _ _ _ Hk5) as [HL5 HB5].
  simpl in E. injection E as <-.
  eexists _, _. repeat split; try eassumption; lia.
Qed.

Lemma search_from_sound prev s gs :
  search_from true PAT_JAV_ID prev s = Some gs -> groups_ok gs.
Proof.
  revert prev. induction s as [|c s IH]; intros prev; cbn [search_from].
  - destruct (match_here true PAT_JAV_ID prev []) eqn:E; [|discriminate].
    intros [= <-]. eapply match_here_sound; eauto.
  - destruct (match_here true PAT_JAV_ID prev (c :: s)) eqn:E.
    + intros [= <-]. eapply match_here_sound; eauto.
    + apply IH.
Qed.

Lemma search_from_hit ic p prev s g :
  match_here ic p prev s = Some g -> search_from ic p prev s = Some g.
Proof. intros H. destruct s; cbn [search_from]; rewrite H; reflexivity. Qed.

(** A match at the current position: letters, one hyphen, digits up to
    the end of the string. *)
Lemma match_here_canonical prev U P :
  match prev with Some c => is_letter c = false | None => True end ->
  letters U -> 4 <= length U <= 6 ->
  digits P -> 3 <= length P <= 6 ->
  match_here true PAT_JAV_ID prev (U ++ "-" :: P) = Some [U; P].
Proof.
  intros Hprev HU HlU HP HlP.
  assert (Hhead : exists d P', P = d :: P' /\ is_digit d = true).
  { destruct HP as [|d P' Hd HP']; [simpl in HlP; lia|]. eauto. }
  destruct Hhead as (d & P' & EP & Hd).
  destruct (digit_facts d Hd) as (_ & _ & Hdws & Hdsep & _).
  unfold PAT_JAV_ID. cbn [match_here].
  assert (Hgo :
    first_some
      (fun k => option_map (cons (firstn k (U ++ "-" :: P)))
         (match_here true
            [Repeat Whitespace 0 None; Repeat (OneOf ["-"; "_"; "."]) 0 None;
             Repeat Whitespace 0 None; Capture (Range "0" "9") 3 (Some 6)]
            (last_char prev (firstn k (U ++ "-" :: P))) (skipn k (U ++ "-" :: P))))
      (greedy_counts 4 (Some 6)
         (span (class_match true (Range "a" "z")) (U ++ "-" :: P)))
    = Some [U; P]).
  { change (class_match true (Range "a" "z")) with is_letter.
    rewrite (span_app_stop _ U "-" P HU) by reflexivity.
    apply first_some_top; unfold top_count; [lia|].
    replace (Nat.min 6 (length U)) with (length U) by lia.
    rewrite firstn_app, Nat.sub_diag, firstn_all. simpl firstn. rewrite app_nil_r.
    rewrite skipn_app, Nat.sub_diag, skipn_all. cbn [skipn app].
    cbn [match_here].
    (* \s* takes nothing *)
    change (span (class_match true Whitespace) ("-" :: P)) with 0.
    change (greedy_counts 0 None 0) with [0]. cbn [first_some skipn].
    (* [\-_\.]* takes the hyphen *)
    assert (Hsep : span (class_match true (OneOf ["-"; "_"; "."])) ("-" :: P) = 1).
    { rewrite EP. change (span ?p ("-" :: d :: P')) with
        (S (if p d then S (span p P') else 0)).
      fold (is_sep d). rewrite Hdsep. reflexivity. }
    rewrite Hsep. change (greedy_counts 0 None 1) with [1; 0].
    cbn [first_some skipn].
    (* \s* takes nothing *)
    assert (Hws : span (class_match true Whitespace) P = 0).
    { rewrite EP. simpl. fold (is_ws d). rewrite Hdws. reflexivity. }
    rewrite Hws. change (greedy_counts 0 None 0) with [0].
    cbn [first_some skipn].
    (* the digits *)
    change (class_match true (Range "0" "9")) with is_digit.
    rewrite (span_all _ P HP).
    rewrite (first_some_top _ 3 (Some 6) (length P) [P]);
      [reflexivity | unfold top_count; lia |].
    unfold top_count. replace (Nat.min 6 (length P)) with (length P) by lia.
    rewrite firstn_all. reflexivity. }
  destruct prev as [c|]; [|exact Hgo].
  fold (is_letter c). rewrite Hprev. exact Hgo.
Qed.

End RegexLemmas.

(** ** Identifiers built by the parser *)

Section JavIdLemmas.

Import PyStr JavIdM.

Lemma uppers_nospace U : uppers U -> Forall (fun c => isspace c = false) U.
Proof.
  intros H. eapply Forall_impl; [|exact H]. intros c Hc.
  apply (uppers_facts c Hc).
Qed.

Lemma digits_nospace n : digits n -> Forall (fun c => isspace c = false) n.
Proof.
  intros H. eapply Forall_impl; [|exact H]. intros c Hc.
  apply (digit_facts c Hc).
Qed.

Lemma uppers_letters U : uppers U -> letters U.
Proof.
  intros H. eapply Forall_impl; [|exact H]. intros c Hc.
  apply (uppers_facts c Hc).
Qed.

Lemma new_canon U n :
  uppers U -> digits n -> no_leading_zero n -> new U n = canon U n.
Proof.
  intros HU Hn Hz. unfold new, post_init, canon. cbn [studio_code scene_code].
  rewrite (strip_id U (uppers_nospace U HU)), (upper_uppers U HU).
  rewrite (strip_id n (digits_nospace n Hn)), (lstrip_id n Hz).
  reflexivity.
Qed.

Lemma from_string_canonical s x :
  from_string s = Some x -> exists U n, canonical U n /\ x = canon U n.
Proof.
  unfold from_string, Re.search.
  destruct (Re.search_from true PAT_JAV_ID None s) as [gs|] eqn:E; [|discriminate].
  destruct (search_from_sound _ _ _ E) as (L & D & -> & HL & HlL & HD & HlD).
  intros [= <-].
  exists (upper L), (lstrip ["0"] D).
  assert (HU : uppers (upper L)) by (apply upper_letters; exact HL).
  assert (Hn : digits (lstrip ["0"] D)) by (apply dropwhile_Forall; exact HD).
  pose proof (lstrip_no_leading_zero D) as Hz.
  split.
  - constructor; auto.
    + rewrite (upper_length L HL). exact HlL.
    + pose proof (dropwhile_length (fun c => mem c ["0"]) D).
      unfold lstrip. lia.
  - apply new_canon; assumption.
Qed.

Lemma zero_digits k : digits (repeat "0" k).
Proof. induction k; simpl; constructor; auto. Qed.

Lemma zfill_canonical w n :
  digits n -> no_leading_zero n ->
  digits (zfill w n)
  /\ length (zfill w n) = Nat.max w (length n)
  /\ lstrip ["0"] (zfill w n) = n.
Proof.
  intros Hn Hz. rewrite (zfill_digits w n Hn). repeat split.
  - apply Forall_app. split; [apply zero_digits | exact Hn].
  - rewrite length_app, repeat_length. lia.
  - unfold lstrip. rewrite dropwhile_repeat by reflexivity.
    apply (lstrip_id n Hz).
Qed.

(** On a numeric part the parser produced, [upper] changes nothing. *)
Lemma zfill_restore_digits k n :
  digits n -> no_leading_zero n ->
  zfill k (lstrip ["0"] (upper (zfill 3 n))) = zfill k n.
Proof.
  intros Hn Hz. destruct (zfill_canonical 3 n Hn Hz) as (HP & _ & Hstrip).
  rewrite (upper_digits _ HP), Hstrip. reflexivity.
Qed.

Lemma uppers_not_alias_target U : uppers U -> PyStr.eqb U (lit "3DSVR") = false.
Proof.
  intros HU. apply eqb_false_iff. intros ->.
  inversion HU as [|c r Hc Hr]. discriminate Hc.
Qed.

(** The Display form of a parsed identifier. *)
Lemma as_dvd_id_canon U n :
  canonical U n ->
  as_dvd_id (canon U n)
  = if PyStr.eqb U (lit "DSVR") then lit "3DSVR" ++ "-" :: zfill 4 n
    else U ++ "-" :: zfill 3 n.
Proof.
  intros [HU HlU Hn Hln Hz]. unfold as_dvd_id, canon. cbn [studio_code scene_code].
  destruct (PyStr.eqb U (lit "DSVR")) eqn:E.
  - change (PyStr.eqb (lit "3DSVR") (lit "3DSVR")) with true. cbv iota.
    rewrite (zfill_restore_digits 4 n Hn Hz).
    reflexivity.
  - rewrite (uppers_not_alias_target U HU), (upper_uppers U HU).
    rewrite (zfill_restore_digits 3 n Hn Hz).
    reflexivity.
Qed.

(** The Content-ID form of a parsed identifier. *)
Lemma as_content_id_canon U n :
  canonical U n ->
  as_content_id (canon U n)
  = (if PyStr.eqb U (lit "DSVR") then lit "13DSVR" else U) ++ zfill 5 n.
Proof.
  intros [HU HlU Hn Hln Hz]. unfold as_content_id, canon.
  cbn [studio_code scene_code].
  destruct (PyStr.eqb U (lit "DSVR")) eqn:E.
  - change (PyStr.eqb (lit "3DSVR") (lit "3DSVR")) with true. cbv iota.
    rewrite (zfill_restore_digits 5 n Hn Hz).
    reflexivity.
  - rewrite (uppers_not_alias_target U HU), (upper_uppers U HU).
    rewrite (zfill_restore_digits 5 n Hn Hz).
    reflexivity.
Qed.

(** Parsing the Display form of a parsed identifier gives it back. *)
Lemma from_string_dvd U n :
  canonical U n -> from_string (as_dvd_id (canon U n)) = Some (canon U n).
Proof.
  intros C. rewrite (as_dvd_id_canon U n C).
  destruct C as [HU HlU Hn Hln Hz].
  unfold from_string, Re.search.
  destruct (PyStr.eqb U (lit "DSVR")) eqn:E.
  - apply eqb_true_iff in E. subst U.
    destruct (zfill_canonical 4 n Hn Hz) as (HP & HlP & Hstrip).
    change (lit "3DSVR" ++ "-" :: zfill 4 n)
      with ("3" :: (lit "DSVR" ++ "-" :: zfill 4 n)).
    cbn [Re.search_from].
    change (Re.match_here true PAT_JAV_ID None
              ("3" :: (lit "DSVR" ++ "-" :: zfill 4 n))) with (@None (list str)).
    cbv iota.
    rewrite (search_from_hit _ _ _ _ [lit "DSVR"; zfill 4 n]).
    + rewrite Hstrip, (upper_uppers _ HU). f_equal. apply new_canon; assumption.
    + apply match_here_canonical; auto using uppers_letters; try lia.
  - destruct (zfill_canonical 3 n Hn Hz) as (HP & HlP & Hstrip).
    rewrite (search_from_hit _ _ _ _ [U; zfill 3 n]).
    + rewrite Hstrip, (upper_uppers _ HU). f_equal. apply new_canon; assumption.
    + apply match_here_canonical; auto using uppers_letters; lia.
Qed.

Lemma javid_eqb_true_iff (a b : JavId) : JavIdM.eqb a b = true <-> a = b.
Proof.
  unfold JavIdM.eqb. rewrite andb_true_iff, !eqb_true_iff.
  destruct a, b; simpl; split; [intros [-> ->]; reflexivity | intros [= -> ->]; auto].
Qed.

Lemma javid_eqb_refl (a : JavId) : JavIdM.eqb a a = true.
Proof. apply javid_eqb_true_iff. reflexivity. Qed.

Lemma javid_eqb_false_iff (a b : JavId) : JavIdM.eqb a b = false <-> a <> b.
Proof.
  rewrite <- javid_eqb_true_iff. destruct (JavIdM.eqb a b); split; congruence.
Qed.

Lemma from_string_roundtrip s x :
  from_string s = Some x -> from_string (as_dvd_id x) = Some x.
Proof.
  intros H. destruct (from_string_canonical s x H) as (U & n & C & ->).
  apply from_string_dvd. exact C.
Qed.

(** The two forms of an identifier are never the same string. *)
Lemma content_id_not_dvd_id (x : JavId) : as_content_id x <> as_dvd_id x.
Proof.
  unfold as_content_id, as_dvd_id.
  destruct (PyStr.eqb (studio_code x) (lit "3DSVR")) eqn:E.
  - apply eqb_true_iff in E. rewrite E. discriminate.
  - set (n := lstrip ["0"] (upper (scene_code x))).
    intros H. apply app_inv_head in H. change (lit "-" ++ zfill 3 n) with ("-" :: zfill 3 n) in H.
    rewrite !zfill_eq in H. destruct n as [|c rest]; [discriminate H|].
    cbn [List.length] in H.
    destruct (is_sign c) eqn:Es.
    + injection H as Hc H. subst c.
      destruct (length rest) as [|[|[|[|k]]]] eqn:El; simpl in H; try discriminate H.
      apply (f_equal (@List.length ascii)) in H. simpl in H. lia.
    + destruct (length rest) as [|[|[|[|k]]]] eqn:El; simpl in H; try discriminate H.
      apply (f_equal (@List.length ascii)) in H. simpl in H. lia.
Qed.

End JavIdLemmas.

(** ** The dictionary of [filter_unmatched_files_by_jav_id] *)

Section DictLemmas.

Context {V : Type}.

Lemma get_set (k k0 : JavId) (v : V) d :
  PyDict.get k (PyDict.set k0 v d)
  = if JavIdM.eqb k0 k then Some v else PyDict.get k d.
Proof.
  induction d as [|[k' v'] d IH]; simpl.
  - reflexivity.
  - destruct (JavIdM.eqb k' k0) eqn:E0; simpl.
    + apply javid_eqb_true_iff in E0. subst k'.
      destruct (JavIdM.eqb k0 k); reflexivity.
    + rewrite IH. destruct (JavIdM.eqb k' k) eqn:E1; [|reflexivity].
      destruct (JavIdM.eqb k0 k) eqn:E2; [|reflexivity].
      apply javid_eqb_true_iff in E1, E2. subst.
      rewrite javid_eqb_refl in E0. discriminate.
Qed.

Lemma get_append (k k0 : JavId) (x : V) (d : PyDict.t (list V)) :
  PyDict.get k (PyDict.append k0 x d)
  = if JavIdM.eqb k0 k then option_map (fun v => v ++ [x]) (PyDict.get k d)
    else PyDict.get k d.
Proof.
  induction d as [|[k' v'] d IH]; simpl.
  - destruct (JavIdM.eqb k0 k); reflexivity.
  - destruct (JavIdM.eqb k' k0) eqn:E0; simpl.
    + apply javid_eqb_true_iff in E0. subst k'.
      destruct (JavIdM.eqb k0 k); reflexivity.
    + rewrite IH. destruct (JavIdM.eqb k' k) eqn:E1; [|reflexivity].
      destruct (JavIdM.eqb k0 k) eqn:E2; [|reflexivity].
      apply javid_eqb_true_iff in E1, E2. subst.
      rewrite javid_eqb_refl in E0. discriminate.
Qed.

End DictLemmas.

Lemma nonempty_snoc {A : Type} (l : list A) (x : A) :
  match l ++ [x] with [] => None | a :: l' => Some (a :: l') end = Some (l ++ [x]).
Proof. destruct l; reflexivity. Qed.

Lemma filter_step_get d f files :
  (forall k, PyDict.get k d = group_of k files) ->
  forall k, PyDict.get k (filter_step d f) = group_of k (files ++ [f]).
Proof.
  intros Hd k. unfold filter_step, group_of.
  rewrite filter_app. cbn [filter]. unfold parses_to at 2.
  destruct (JavIdM.from_string (filename f)) as [j|] eqn:E.
  - fold (is_czech j). destruct (is_czech j) eqn:Ecz.
    + rewrite Hd. unfold group_of. destruct (is_czech k) eqn:Ek; [reflexivity|].
      destruct (JavIdM.eqb j k) eqn:Ejk.
      * apply javid_eqb_true_iff in Ejk. congruence.
      * rewrite app_nil_r. reflexivity.
    + rewrite get_append. destruct (JavIdM.eqb j k) eqn:Ejk.
      * apply javid_eqb_true_iff in Ejk. subst k. rewrite Ecz.
        rewrite nonempty_snoc.
        unfold PyDict.contains. rewrite (Hd j). unfold group_of. rewrite Ecz.
        destruct (filter (parses_to j) files) as [|f0 fs] eqn:Ef; cbn [negb].
        -- rewrite get_set, javid_eqb_refl. reflexivity.
        -- rewrite (Hd j). unfold group_of. rewrite Ecz, Ef. reflexivity.
      * rewrite app_nil_r.
        assert (Hk : PyDict.get k
                  (if negb (PyDict.contains j d) then PyDict.set j [] d else d)
                = PyDict.get k d).
        { destruct (negb (PyDict.contains j d)); [|reflexivity].
          rewrite get_set, Ejk. reflexivity. }
        rewrite Hk. apply Hd.
  - rewrite app_nil_r. apply Hd.
Qed.

Lemma filter_fold_get rest :
  forall d done,
    (forall k, PyDict.get k d = group_of k done) ->
    forall k, PyDict.get k (fold_left filter_step rest d) = group_of k (done ++ rest).
Proof.
  induction rest as [|f rest IH]; intros d done Hd k; simpl.
  - rewrite app_nil_r. apply Hd.
  - replace (done ++ f :: rest) with ((done ++ [f]) ++ rest)
      by (rewrite <- app_assoc; reflexivity).
    apply IH. apply filter_step_get. exact Hd.
Qed.

(** * The claims *)

(** C1 (as amended).  The inputs ["ABCD-123"], ["abcd_0123"] and ["abcd123"]
    parse to one and the same identifier, whose Display form is
    ["ABCD-123"]; the input ["AB CD.123"] has no run of 4 to 6 letters and
    is rejected. *)
Theorem from_string_spellings :
  exists x,
    JavIdM.from_string (lit "ABCD-123") = Some x
    /\ JavIdM.from_string (lit "abcd_0123") = Some x
    /\ JavIdM.from_string (lit "abcd123") = Some x
    /\ JavIdM.as_dvd_id x = lit "ABCD-123"
    /\ JavIdM.from_string (lit "AB CD.123") = None.
Proof.
  exists {| studio_code := lit "ABCD"; scene_code := lit "123" |}.
  repeat split; vm_compute; reflexivity.
Qed.

(** C1, the input on which the claim fails: ["AB CD.123"] is not parsed. *)
Lemma from_string_split_letters :
  JavIdM.from_string (lit "AB CD.123") = None.
Proof. vm_compute. reflexivity. Qed.

(** C4.  Parsing the Display form of an identifier that came out of the
    parser succeeds and gives an identifier equal to it; the alias case,
    whose Display form starts with a digit, is included. *)
Theorem as_dvd_id_roundtrip (s : str) (x : JavId) :
  JavIdM.from_string s = Some x ->
  exists y,
    JavIdM.from_string (JavIdM.as_dvd_id x) = Some y /\ JavIdM.eqb y x = true.
Proof.
  intros H. exists x. split.
  - eapply from_string_roundtrip; eauto.
  - apply javid_eqb_refl.
Qed.

Lemma as_dvd_id_roundtrip_witness :
  exists y,
    JavIdM.from_string
      (JavIdM.as_dvd_id {| studio_code := lit "3DSVR"; scene_code := lit "042" |})
    = Some y
    /\ JavIdM.eqb y {| studio_code := lit "3DSVR"; scene_code := lit "042" |} = true.
Proof.
  apply (as_dvd_id_roundtrip (lit "dsvr_0042.mp4")). vm_compute. reflexivity.
Defined.

(** C5.  When the studio code given to the constructor normalizes (strip,
    upper) to ["DSVR"], the identifier stores ["3DSVR"]; with [n] the
    sequence number (stripped, leading zeros removed, upper-cased) the
    Display form is ["3DSVR-"] followed by [n] padded to 4, and the
    Content-ID form is ["13DSVR"] followed by [n] padded to 5. *)
Theorem alias_rule (studio scene : str) :
  PyStr.upper (PyStr.strip studio) = lit "DSVR" ->
  let x := JavIdM.new studio scene in
  let n := PyStr.upper (PyStr.lstrip ["0"] (PyStr.strip scene)) in
  studio_code x = lit "3DSVR"
  /\ JavIdM.as_dvd_id x = lit "3DSVR-" ++ PyStr.zfill 4 n
  /\ JavIdM.as_content_id x = lit "13DSVR" ++ PyStr.zfill 5 n.
Proof.
  intros H x n. subst x n.
  pose proof (lstrip_no_leading_zero (PyStr.strip scene)) as Hz.
  unfold JavIdM.new, JavIdM.post_init, JavIdM.as_dvd_id, JavIdM.as_content_id.
  cbn [studio_code scene_code]. rewrite H.
  change (PyStr.eqb (lit "DSVR") (lit "DSVR")) with true. cbv iota.
  change (PyStr.eqb (lit "3DSVR") (lit "3DSVR")) with true. cbv iota.
  rewrite (zfill_restore 4), (zfill_restore 5) by (auto; lia).
  repeat split; reflexivity.
Qed.

Lemma alias_rule_witness :
  let x := JavIdM.new (lit " dsvr ") (lit "0042") in
  let n := PyStr.upper (PyStr.lstrip ["0"] (PyStr.strip (lit "0042"))) in
  studio_code x = lit "3DSVR"
  /\ JavIdM.as_dvd_id x = lit "3DSVR-" ++ PyStr.zfill 4 n
  /\ JavIdM.as_content_id x = lit "13DSVR" ++ PyStr.zfill 5 n.
Proof. exact (alias_rule (lit " dsvr ") (lit "0042") eq_refl). Defined.

(** C6.  Two identifiers that came out of the parser are equal (the
    dataclass [__eq__]) and have equal hashes if and only if their Display
    forms are the same string; equality alone is already equivalent to
    that. *)
Theorem eq_hash_iff_dvd_id (hash_str : str -> Z) (s1 s2 : str) (x1 x2 : JavId) :
  JavIdM.from_string s1 = Some x1 ->
  JavIdM.from_string s2 = Some x2 ->
  ((JavIdM.eqb x1 x2 = true /\ JavIdM.hash hash_str x1 = JavIdM.hash hash_str x2)
   <-> JavIdM.as_dvd_id x1 = JavIdM.as_dvd_id x2)
  /\ (JavIdM.eqb x1 x2 = true <-> JavIdM.as_dvd_id x1 = JavIdM.as_dvd_id x2).
Proof.
  intros H1 H2.
  assert (Hinj : JavIdM.as_dvd_id x1 = JavIdM.as_dvd_id x2 -> x1 = x2).
  { intros E. apply from_string_roundtrip in H1, H2. rewrite E in H1. congruence. }
  split; split.
  - intros [E _]. apply javid_eqb_true_iff in E. congruence.
  - intros E. specialize (Hinj E). subst x2. split; [apply javid_eqb_refl | reflexivity].
  - intros E. apply javid_eqb_true_iff in E. congruence.
  - intros E. rewrite (Hinj E). apply javid_eqb_refl.
Qed.

Lemma eq_hash_iff_dvd_id_witness :
  let x1 := {| studio_code := lit "ABCD"; scene_code := lit "123" |} in
  let x2 := {| studio_code := lit "ABCD"; scene_code := lit "123" |} in
  let h := fun s : str => Z.of_nat (length s) in
  ((JavIdM.eqb x1 x2 = true /\ JavIdM.hash h x1 = JavIdM.hash h x2)
   <-> JavIdM.as_dvd_id x1 = JavIdM.as_dvd_id x2)
  /\ (JavIdM.eqb x1 x2 = true <-> JavIdM.as_dvd_id x1 = JavIdM.as_dvd_id x2).
Proof.
  exact (eq_hash_iff_dvd_id (fun s => Z.of_nat (length s))
           (lit "ABCD-123") (lit "abcd_0123.mp4") _ _ eq_refl eq_refl).
Defined.

(** C7.  The dictionary built by [filter_unmatched_files_by_jav_id] holds,
    under a key [k], exactly the input files whose name parses to an
    identifier equal to [k], in input order; a key has no entry when no
    file parses to it, and none when its studio code starts, whatever the
    case, with ["czech"].  Files whose name does not parse are under no
    key. *)
Theorem filter_unmatched_files_by_jav_id_spec (files : list FileInfo) (k : JavId) :
  PyDict.get k (filter_unmatched_files_by_jav_id files)
  = if is_czech k then None
    else match filter (parses_to k) files with
         | [] => None
         | fs => Some fs
         end.
Proof.
  unfold filter_unmatched_files_by_jav_id.
  change files with ([] ++ files) at 2.
  apply (filter_fold_get files [] []).
  intros k'. unfold group_of. simpl. destruct (is_czech k'); reflexivity.
Qed.

(** The grouping example of the specification: two spellings of one
    identifier share a key, a name without identifier is left out. *)
Example filter_groups_by_identifier :
  let f1 := {| file_id := 1; filename := lit "ABCD-001.mp4" |} in
  let f2 := {| file_id := 2; filename := lit "abcd001_b.mp4" |} in
  let f3 := {| file_id := 3; filename := lit "WXYZ-002.mp4" |} in
  let f4 := {| file_id := 4; filename := lit "randomfile.mp4" |} in
  filter_unmatched_files_by_jav_id [f1; f2; f3; f4]
  = [ ({| studio_code := lit "ABCD"; scene_code := lit "001" |}, [f1; f2]);
      ({| studio_code := lit "WXYZ"; scene_code := lit "002" |}, [f3]) ].
Proof. vm_compute. reflexivity. Qed.

(** A name that parses, with a studio code starting with "czech", is left
    out as well. *)
Example filter_drops_czech :
  let f := {| file_id := 5; filename := lit "Czech 1234 scene.mp4" |} in
  option_map JavIdM.as_dvd_id (JavIdM.from_string (filename f)) = Some (lit "CZECH-1234")
  /\ filter_unmatched_files_by_jav_id [f] = [].
Proof. split; vm_compute; reflexivity. Qed.

(** ** The script: exceptions *)

Section ScriptLemmas.

Context {W : Type}.
Variable respond : Request -> W -> Response * W.
Variable cfg : Config.

Lemma last_app_in {A : Type} (x d : A) t t' :
  In x t' -> last (t ++ t') d = last t' d.
Proof.
  intros Hin. induction t as [|a t IH]; [reflexivity|].
  change ((a :: t) ++ t') with (a :: (t ++ t')).
  destruct (t ++ t') eqn:E.
  - apply app_eq_nil in E. destruct E as [_ ->]. destruct Hin.
  - rewrite <- E in *. rewrite <- IH. rewrite E. reflexivity.
Qed.

Lemma fail_fast_ret {A : Type} (a : A) : fail_fast (@ret W A a).
Proof. intros w r resp []. Qed.

Lemma fail_fast_print m : fail_fast (@emit W (Print m)).
Proof. intros w r resp [H|[]]. discriminate H. Qed.

Lemma fail_fast_bind {A B : Type} (m : @M W A) (f : A -> @M W B) :
  fail_fast m -> (forall a, fail_fast (f a)) -> fail_fast (bind m f).
Proof.
  intros Hm Hf w. specialize (Hm w). unfold bind.
  destruct (m w) as [[[e|a] w'] t] eqn:Em.
  { intros r resp Hin. destruct (Hm r resp Hin) as [Hk Hbad]. split; [exact Hk|].
    intros Hs. destruct (Hbad Hs) as [Hres Hlast]. unfold result_of in *.
    cbn [fst] in *. split; [congruence | exact Hlast]. }
  specialize (Hf a w'). destruct (f a w') as [[r2 w''] t'] eqn:Ef.
  intros r resp Hin. unfold trace_of, result_of in *. cbn [fst snd] in *.
  apply in_app_or in Hin. destruct Hin as [Hin|Hin].
  - destruct (Hm r resp Hin) as [Hk Hbad]. split; [exact Hk|].
    intros Hs. destruct (Hbad Hs) as [Habs _]. discriminate Habs.
  - destruct (Hf r resp Hin) as [Hk Hbad]. split; [exact Hk|].
    intros Hs. destruct (Hbad Hs) as [Hres Hlast]. split; [exact Hres|].
    rewrite (last_app_in (Http r resp)); assumption.
Qed.

Lemma fail_fast_for_each {A S : Type} (l : list A) (body : A -> S -> @M W S) :
  (forall x s, fail_fast (body x s)) -> forall s, fail_fast (for_each l body s).
Proof.
  intros Hb. induction l as [|x l IH]; intros s; cbn [for_each].
  - apply fail_fast_ret.
  - apply fail_fast_bind; auto.
Qed.

Ltac one_request :=
  let w := fresh "w" in
  let r := fresh "r" in
  let resp := fresh "resp" in
  let Hin := fresh "Hin" in
  intros w r resp Hin;
  unfold trace_of, result_of, bind, request, raise, ret, emit in *;
  match type of Hin with
  | context [respond ?q w] => destruct (respond q w) as [? ?] eqn:?
  end;
  cbn [fst snd] in *;
  repeat match type of Hin with
         | context [Z.eqb ?a ?b] => destruct (Z.eqb_spec a b)
         end;
  cbn [negb fst snd app] in *;
  repeat match goal with
         | H : In _ (_ :: _) |- _ => destruct H as [H|H]; try discriminate H
         | H : In _ [] |- _ => destruct H
         | H : Http _ _ = Http _ _ |- _ => injection H as <- <-
         end;
  (split; [reflexivity | intros Hs; try contradiction; split; reflexivity]).

Lemma fail_fast_get_scenes_for_id jid : fail_fast (get_scenes_for_id respond cfg jid).
Proof. unfold get_scenes_for_id. one_request. Qed.

Lemma fail_fast_scrape_jav_scene jav_id scraper :
  fail_fast (scrape_jav_scene respond cfg jav_id scraper).
Proof. unfold scrape_jav_scene. one_request. Qed.

Lemma fail_fast_match_file_to_scene file_info scene_info :
  fail_fast (match_file_to_scene respond cfg file_info scene_info).
Proof. unfold match_file_to_scene. one_request. Qed.

Lemma fail_fast_first_lookup jav_id : fail_fast (first_lookup respond cfg jav_id).
Proof.
  unfold first_lookup. apply fail_fast_bind; [|intros; apply fail_fast_ret].
  apply fail_fast_for_each. intros jid acc.
  apply fail_fast_bind; [apply fail_fast_get_scenes_for_id | intros; apply fail_fast_ret].
Qed.

Lemma fail_fast_loop_lookup jav_id before :
  fail_fast (loop_lookup respond cfg jav_id before).
Proof.
  unfold loop_lookup. apply fail_fast_bind; [|intros; apply fail_fast_ret].
  apply fail_fast_for_each. intros jid acc.
  apply fail_fast_bind; [apply fail_fast_get_scenes_for_id | intros; apply fail_fast_ret].
Qed.

Lemma fail_fast_scrape_loop jav_id scrapers :
  forall info, fail_fast (scrape_loop respond cfg jav_id scrapers info).
Proof.
  induction scrapers as [|sc rest IH]; intros [scene|]; cbn [scrape_loop];
    try apply fail_fast_ret.
  apply fail_fast_bind; [apply fail_fast_print | intros _].
  apply fail_fast_bind; [apply fail_fast_scrape_jav_scene | intros _].
  apply fail_fast_bind; [apply fail_fast_loop_lookup | intros info; apply IH].
Qed.

Lemma fail_fast_process_jav_id item counts :
  fail_fast (process_jav_id respond cfg item counts).
Proof.
  unfold process_jav_id.
  apply fail_fast_bind; [apply fail_fast_print | intros _].
  apply fail_fast_bind; [apply fail_fast_print | intros _].
  apply fail_fast_bind; [apply fail_fast_first_lookup | intros found].
  apply fail_fast_bind; [apply fail_fast_scrape_loop | intros [scene|]].
  - apply fail_fast_bind; [apply fail_fast_print | intros _].
    apply fail_fast_bind; [|intros; apply fail_fast_ret].
    apply fail_fast_for_each. intros; apply fail_fast_match_file_to_scene.
  - apply fail_fast_bind; [apply fail_fast_print | intros; apply fail_fast_ret].
Qed.

Lemma fail_fast_main_after_list files :
  fail_fast (main_after_list respond cfg files).
Proof.
  unfold main_after_list.
  apply fail_fast_bind; [apply fail_fast_print | intros _].
  apply fail_fast_bind;
    [apply fail_fast_for_each; intros; apply fail_fast_process_jav_id | intros counts].
  apply fail_fast_bind; [apply fail_fast_print | intros _].
  apply fail_fast_bind; [apply fail_fast_print | intros; apply fail_fast_ret].
Qed.

(** The two ways [__main__] goes on after the file list request. *)
Lemma main_unfold w :
  main respond cfg w
  = match respond (POST (FILE_LIST_URL cfg) UnmatchedFilter) w with
    | (resp, w1) =>
        if Z.eqb (status_code resp) 200
        then
          match main_after_list respond cfg (json_files resp) w1 with
          | (res, w2, t) =>
              (res, w2,
               Print MsgGetting
                 :: Http (POST (FILE_LIST_URL cfg) UnmatchedFilter) resp :: t)
          end
        else
          (inl (SystemExit 1), w1,
           [Print MsgGetting;
            Http (POST (FILE_LIST_URL cfg) UnmatchedFilter) resp;
            Print (MsgListFailed (content resp)); Print MsgCheckConfig])
    end.
Proof.
  change (main respond cfg w) with
    (bind (emit (Print MsgGetting))
       (fun _ =>
          bind (try_except (get_unmatched_files_list respond cfg)
                  (fun e =>
                     bind (emit (Print (MsgListFailed e)))
                       (fun _ => bind (emit (Print MsgCheckConfig))
                                   (fun _ => raise (SystemExit 1)))))
            (main_after_list respond cfg)) w).
  cbv [bind try_except get_unmatched_files_list request emit raise ret].
  destruct (respond (POST (FILE_LIST_URL cfg) UnmatchedFilter) w) as [resp w1].
  destruct (Z.eqb (status_code resp) 200); cbn [negb app].
  - destruct (main_after_list respond cfg (json_files resp) w1) as [[res w2] t].
    reflexivity.
  - reflexivity.
Qed.

End ScriptLemmas.

(** ** The script: lookups that find nothing *)

Section NothingFound.

Context {W : Type}.
Variable respond : Request -> W -> Response * W.
Variable cfg : Config.
Variable jav_id : JavId.

Hypothesis all_ok : forall r w, status_code (fst (respond r w)) = 200%Z.
Hypothesis none_found :
  forall url q w,
    json_results (fst (respond (GET url (SearchParams q)) w)) = 0%Z
    \/ Forall (no_match jav_id) (json_scenes (fst (respond (GET url (SearchParams q)) w))).

Lemma get_scene_for_jav_id_none scenes :
  Forall (no_match jav_id) scenes -> get_scene_for_jav_id jav_id scenes = None.
Proof.
  induction 1 as [|sc scenes Hsc Hs IH]; cbn [get_scene_for_jav_id]; [reflexivity|].
  destruct (JavIdM.from_string (scene_id sc)) as [sid|] eqn:E; [|reflexivity].
  destruct (JavIdM.eqb sid jav_id) eqn:Eq; [|exact IH].
  apply javid_eqb_true_iff in Eq. subst sid. contradiction.
Qed.

Lemma get_scenes_for_id_nothing jid w :
  exists scenes w' t,
    get_scenes_for_id respond cfg jid w = (inr scenes, w', t)
    /\ Forall (no_match jav_id) scenes /\ quiet t.
Proof.
  unfold get_scenes_for_id, bind, request.
  set (q := lit "+id:" ++ ["034"%char] ++ jid ++ ["034"%char]).
  pose proof (all_ok (GET (SCENE_SEARCH_URL cfg) (SearchParams q)) w) as Hok.
  pose proof (none_found (SCENE_SEARCH_URL cfg) q w) as Hnone.
  destruct (respond (GET (SCENE_SEARCH_URL cfg) (SearchParams q)) w) as [resp w'].
  cbn [fst] in *. rewrite Hok. cbn [Z.eqb Pos.eqb negb].
  assert (Hq : forall e : Event,
             e = Http (GET (SCENE_SEARCH_URL cfg) (SearchParams q)) resp ->
             quiet [e]).
  { intros e ->. repeat split; simpl; intuition discriminate. }
  destruct (Z.eqb_spec (json_results resp) 0) as [Hz|Hz]; unfold ret.
  - exists [], w', [Http (GET (SCENE_SEARCH_URL cfg) (SearchParams q)) resp].
    repeat split; auto; apply (Hq _ eq_refl).
  - exists (json_scenes resp), w',
      [Http (GET (SCENE_SEARCH_URL cfg) (SearchParams q)) resp].
    destruct Hnone as [Hn|Hn]; [contradiction|].
    repeat split; auto; apply (Hq _ eq_refl).
Qed.

Lemma scrape_requests_app t t' :
  scrape_requests (t ++ t') = scrape_requests t ++ scrape_requests t'.
Proof.
  induction t as [|e t IH]; [reflexivity|].
  destruct e as [[u p|u p] resp| |]; try destruct p; simpl; rewrite ?IH; reflexivity.
Qed.

Lemma sleeps_app t t' : sleeps (t ++ t') = sleeps t ++ sleeps t'.
Proof.
  induction t as [|e t IH]; [reflexivity|].
  destruct e; simpl; rewrite ?IH; reflexivity.
Qed.

Lemma quiet_app t t' : quiet t -> quiet t' -> quiet (t ++ t').
Proof.
  intros (H1 & H2 & H3) (H1' & H2' & H3'). unfold quiet.
  rewrite scrape_requests_app, sleeps_app, H1, H2, H1', H2'.
  repeat split. intros Hin. apply in_app_or in Hin. tauto.
Qed.

Lemma quiet_nil : quiet [].
Proof. repeat split. intros []. Qed.

Lemma bind_inr {A B : Type} (m : @M W A) (f : A -> @M W B) w a w' t r w'' t' :
  m w = (inr a, w', t) -> f a w' = (r, w'', t') ->
  bind m f w = (r, w'', t ++ t').
Proof. intros Hm Hf. unfold bind. rewrite Hm, Hf. reflexivity. Qed.

(** Both formats are searched and nothing matches. *)
Lemma first_lookup_nothing w :
  exists w' t, first_lookup respond cfg jav_id w = (inr None, w', t) /\ quiet t.
Proof.
  destruct (get_scenes_for_id_nothing (JavIdM.as_content_id jav_id) w)
    as (s1 & w1 & t1 & E1 & Hs1 & Hq1).
  destruct (get_scenes_for_id_nothing (JavIdM.as_dvd_id jav_id) w1)
    as (s2 & w2 & t2 & E2 & Hs2 & Hq2).
  unfold first_lookup, JavIdM.id_formats. cbn [for_each].
  eexists w2, _. split.
  - eapply bind_inr.
    + eapply bind_inr; [eapply bind_inr; [exact E1 | reflexivity]|].
      eapply bind_inr; [eapply bind_inr; [exact E2 | reflexivity]|].
      reflexivity.
    + unfold ret. rewrite get_scene_for_jav_id_none; [reflexivity|].
      cbn [app]. apply Forall_app; auto.
  - rewrite !app_nil_r. apply quiet_app; assumption.
Qed.

Lemma loop_lookup_nothing w :
  exists w' t, loop_lookup respond cfg jav_id None w = (inr None, w', t) /\ quiet t.
Proof.
  destruct (get_scenes_for_id_nothing (JavIdM.as_content_id jav_id) w)
    as (s1 & w1 & t1 & E1 & Hs1 & Hq1).
  destruct (get_scenes_for_id_nothing (JavIdM.as_dvd_id jav_id) w1)
    as (s2 & w2 & t2 & E2 & Hs2 & Hq2).
  unfold loop_lookup, JavIdM.id_formats. cbn [for_each].
  eexists w2, _. split.
  - eapply bind_inr.
    + eapply bind_inr; [eapply bind_inr; [exact E1 | reflexivity]|].
      eapply bind_inr; [eapply bind_inr; [exact E2 | reflexivity]|].
      reflexivity.
    + unfold ret. cbn [fst snd app].
      rewrite get_scene_for_jav_id_none; [reflexivity|].
      apply Forall_app; auto.
  - rewrite !app_nil_r. apply quiet_app; assumption.
Qed.

Lemma scrape_jav_scene_ok scraper w :
  exists w' t,
    scrape_jav_scene respond cfg jav_id scraper w = (inr tt, w', t)
    /\ scrape_requests t = [scrape_query jav_id scraper] /\ sleeps t = [10%Z]
    /\ ~ In (Print MsgNotFound) t.
Proof.
  unfold scrape_jav_scene, bind, request, scrape_query.
  match goal with
  | |- context [respond ?r w] =>
      pose proof (all_ok r w) as Hok; destruct (respond r w) as [resp w']
  end.
  cbn [fst] in Hok. rewrite Hok. cbn [Z.eqb Pos.eqb negb]. unfold emit.
  eexists _, _. split; [reflexivity|]. cbn [app].
  repeat split; simpl; intuition discriminate.
Qed.

(** Every provider the iterator still has is triggered once, in order. *)
Lemma scrape_loop_nothing scrapers :
  forall w,
  exists w' t,
    scrape_loop respond cfg jav_id scrapers None w = (inr None, w', t)
    /\ scrape_requests t = map (scrape_query jav_id) scrapers
    /\ sleeps t = map (fun _ => 10%Z) scrapers
    /\ ~ In (Print MsgNotFound) t.
Proof.
  induction scrapers as [|sc rest IH]; intros w; cbn [scrape_loop].
  - exists w, []. repeat split. intros [].
  - destruct (scrape_jav_scene_ok sc w) as (w1 & t1 & E1 & Hr1 & Hs1 & Hn1).
    destruct (loop_lookup_nothing w1) as (w2 & t2 & E2 & Hr2 & Hs2 & Hn2).
    destruct (IH w2) as (w3 & t3 & E3 & Hr3 & Hs3 & Hn3).
    eexists w3, _. split.
    + eapply bind_inr; [reflexivity|].
      eapply bind_inr; [exact E1|].
      eapply bind_inr; [exact E2 | exact E3].
    + cbn [app scrape_requests sleeps].
      rewrite !scrape_requests_app, !sleeps_app, Hr1, Hr2, Hr3, Hs1, Hs2, Hs3.
      repeat split.
      intros [H|H]; [discriminate H|].
      repeat (apply in_app_or in H; destruct H as [H|H]); tauto.
Qed.

Lemma process_jav_id_nothing file_infos counts w :
  exists w' t,
    process_jav_id respond cfg (jav_id, file_infos) counts w
    = (inr (fst counts, S (snd counts)), w', t)
    /\ scrape_requests t = map (scrape_query jav_id) JavScrapers_members
    /\ sleeps t = [10%Z; 10%Z; 10%Z]
    /\ last t (Print MsgBlank) = Print MsgNotFound.
Proof.
  destruct (first_lookup_nothing w) as (w1 & t1 & E1 & Hr1 & Hs1 & Hn1).
  destruct (scrape_loop_nothing JavScrapers_members w1)
    as (w2 & t2 & E2 & Hr2 & Hs2 & Hn2).
  unfold process_jav_id. cbn [fst snd].
  eexists w2, _. split.
  - eapply bind_inr; [reflexivity|].
    eapply bind_inr; [reflexivity|].
    eapply bind_inr; [exact E1|].
    eapply bind_inr; [exact E2|].
    eapply bind_inr; reflexivity.
  - cbn [app scrape_requests sleeps].
    rewrite !scrape_requests_app, !sleeps_app, Hr1, Hr2, Hs1, Hs2.
    split; [reflexivity|]. split; [reflexivity|].
    change (Print MsgBlank :: Print (MsgSearching jav_id (length file_infos))
              :: t1 ++ t2 ++ [Print MsgNotFound])
      with ([Print MsgBlank; Print (MsgSearching jav_id (length file_infos))]
              ++ t1 ++ t2 ++ [Print MsgNotFound]).
    rewrite !app_assoc. apply last_last.
Qed.

End NothingFound.

(** ** The remaining claims *)

(** [get_scene_for_jav_id] on a list whose scenes all parse up to the first
    one that matches. *)
Lemma get_scene_for_jav_id_first_match jav_id before scene after :
  Forall (fun sc => exists sid, JavIdM.from_string (scene_id sc) = Some sid
                                /\ sid <> jav_id) before ->
  JavIdM.from_string (scene_id scene) = Some jav_id ->
  get_scene_for_jav_id jav_id (before ++ scene :: after) = Some scene.
Proof.
  intros Hb Hs. induction Hb as [|sc before (sid & E & Hne) Hb IH]; simpl.
  - rewrite Hs, javid_eqb_refl. reflexivity.
  - rewrite E. apply javid_eqb_false_iff in Hne. rewrite Hne. exact IH.
Qed.

(** [get_scene_for_jav_id] gives up at the first scene that does not parse,
    whatever comes after it. *)
Lemma get_scene_for_jav_id_gives_up jav_id before scene after :
  Forall (fun sc => exists sid, JavIdM.from_string (scene_id sc) = Some sid
                                /\ sid <> jav_id) before ->
  JavIdM.from_string (scene_id scene) = None ->
  get_scene_for_jav_id jav_id (before ++ scene :: after) = None.
Proof.
  intros Hb Hs. induction Hb as [|sc before (sid & E & Hne) Hb IH]; simpl.
  - rewrite Hs. reflexivity.
  - rewrite E. apply javid_eqb_false_iff in Hne. rewrite Hne. exact IH.
Qed.

(** C2, the code at the failing input: with an unparsable scene id ahead of
    the matching scene, [get_scene_for_jav_id] returns [None], although the
    second scene parses to the identifier looked for and is returned when
    it stands alone. *)
Theorem get_scene_for_jav_id_early_return :
  let jav_id := {| studio_code := lit "ABCD"; scene_code := lit "123" |} in
  let other := {| scene_id := lit "slr-12345"; title := lit "Other" |} in
  let wanted := {| scene_id := lit "ABCD-123"; title := lit "Wanted" |} in
  JavIdM.from_string (scene_id other) = None
  /\ JavIdM.from_string (scene_id wanted) = Some jav_id
  /\ get_scene_for_jav_id jav_id [other; wanted] = None
  /\ get_scene_for_jav_id jav_id [wanted] = Some wanted.
Proof. repeat split; vm_compute; reflexivity. Qed.

(** C3 (as amended).  A request of the main loop (scene search, scrape
    trigger, file match) that is answered with a status other than 200
    raises an exception that nothing catches: it is the last event of the
    run, which ends with that exception.  When it is the initial file list
    request that is refused, the run ends with [SystemExit 1]. *)
Theorem main_failure_policy {W : Type} (respond : Request -> W -> Response * W)
        (cfg : Config) (w : W) (r : Request) (resp : Response) :
  In (Http r resp) (trace_of (main respond cfg w)) ->
  status_code resp <> 200%Z ->
  if is_file_list r
  then result_of (main respond cfg w) = inl (SystemExit 1)
  else result_of (main respond cfg w) = inl (PyException (content resp))
       /\ last (trace_of (main respond cfg w)) (Print MsgBlank) = Http r resp.
Proof.
  rewrite main_unfold.
  destruct (respond (POST (FILE_LIST_URL cfg) UnmatchedFilter) w) as [resp0 w1].
  destruct (Z.eqb_spec (status_code resp0) 200) as [Hok|Hbad].
  - pose proof (fail_fast_main_after_list respond cfg (json_files resp0) w1) as Hff.
    destruct (main_after_list respond cfg (json_files resp0) w1) as [[res w2] t].
    unfold fail_fast_outcome, trace_of, result_of in *. cbn [fst snd] in *.
    intros [H|[H|H]] Hs; [discriminate H | injection H as <- <-; contradiction |].
    destruct (Hff r resp H) as [Hk Hrest]. rewrite Hk.
    destruct (Hrest Hs) as [Hres Hlast]. split; [exact Hres|].
    change (Print MsgGetting :: Http (POST (FILE_LIST_URL cfg) UnmatchedFilter) resp0 :: t)
      with ([Print MsgGetting; Http (POST (FILE_LIST_URL cfg) UnmatchedFilter) resp0] ++ t).
    rewrite (last_app_in (Http r resp)); assumption.
  - unfold trace_of, result_of. cbn [fst snd].
    intros [H|[H|[H|[H|[]]]]] Hs; try discriminate H.
    injection H as <- <-. reflexivity.
Qed.

Lemma main_failure_policy_witness :
  result_of (main refusing_server default_config tt)
  = inl (PyException (lit "Internal Server Error"))
  /\ last (trace_of (main refusing_server default_config tt)) (Print MsgBlank)
     = Http (search_request default_config (lit "ABCD00001"))
            (empty_response 500 (lit "Internal Server Error")).
Proof.
  apply (main_failure_policy refusing_server default_config tt
           (search_request default_config (lit "ABCD00001"))
           (empty_response 500 (lit "Internal Server Error"))).
  - vm_compute. do 5 right. left. reflexivity.
  - vm_compute. discriminate.
Defined.

(** C3, the run on which the claim fails: the file list is retrieved, the
    first search is refused, and the run ends with the exception; the
    second identifier of the batch is never searched. *)
Lemma main_aborts_on_refused_search :
  result_of (main refusing_server default_config tt)
  = inl (PyException (lit "Internal Server Error"))
  /\ length (filter_unmatched_files_by_jav_id
               (json_files (fst (refusing_server
                  (POST (FILE_LIST_URL default_config) UnmatchedFilter) tt)))) = 2
  /\ search_queries (trace_of (main refusing_server default_config tt))
     = [lit "+id:" ++ ["034"] ++ lit "ABCD00001" ++ ["034"]].
Proof. repeat split; vm_compute; reflexivity. Qed.

(** C8.  When every request is answered with status 200 and no search
    result parses to the identifier, the loop body ends normally after the
    three providers have been triggered once each, in the order
    javdatabase, r18d, javlibrary, each followed by the wait; the last
    thing it does is report the failure, and [count_bad] is one more. *)
Theorem matching_loop_exhausted {W : Type} (respond : Request -> W -> Response * W)
        (cfg : Config) (jav_id : JavId) (file_infos : list FileInfo)
        (counts : nat * nat) (w : W) :
  (forall r w0, status_code (fst (respond r w0)) = 200%Z) ->
  (forall url q w0,
      json_results (fst (respond (GET url (SearchParams q)) w0)) = 0%Z
      \/ Forall (fun sc => JavIdM.from_string (scene_id sc) <> Some jav_id)
           (json_scenes (fst (respond (GET url (SearchParams q)) w0)))) ->
  exists w' t,
    process_jav_id respond cfg (jav_id, file_infos) counts w
    = (inr (fst counts, S (snd counts)), w', t)
    /\ scrape_requests t
       = [ (JavIdM.as_dvd_id jav_id, lit "javdatabase");
           (JavIdM.as_content_id jav_id, lit "r18d");
           (JavIdM.as_dvd_id jav_id, lit "javlibrary") ]
    /\ sleeps t = [10%Z; 10%Z; 10%Z]
    /\ last t (Print MsgBlank) = Print MsgNotFound.
Proof.
  intros Hok Hnone.
  exact (process_jav_id_nothing respond cfg jav_id Hok Hnone file_infos counts w).
Qed.

Lemma matching_loop_exhausted_witness :
  exists w' t,
    process_jav_id blank_server default_config
      ({| studio_code := lit "ABCD"; scene_code := lit "123" |},
       [ {| file_id := 7; filename := lit "abcd-123.mp4" |} ]) (0, 0) tt
    = (inr (0, 1), w', t)
    /\ scrape_requests t
       = [ (lit "ABCD-123", lit "javdatabase");
           (lit "ABCD00123", lit "r18d");
           (lit "ABCD-123", lit "javlibrary") ]
    /\ sleeps t = [10%Z; 10%Z; 10%Z]
    /\ last t (Print MsgBlank) = Print MsgNotFound.
Proof.
  apply (matching_loop_exhausted blank_server default_config
           {| studio_code := lit "ABCD"; scene_code := lit "123" |}
           [ {| file_id := 7; filename := lit "abcd-123.mp4" |} ] (0, 0) tt).
  - intros r w0. reflexivity.
  - intros url q w0. left. reflexivity.
Defined.

(** C9.  [scrape_jav_scene] sends one request, the scrape request; its
    query is the Content-ID form for the provider r18d and the Display form
    for javdatabase and javlibrary, and the two forms are never the same
    string. *)
Theorem scrape_jav_scene_query {W : Type} (respond : Request -> W -> Response * W)
        (cfg : Config) (jav_id : JavId) (w : W) :
  let sent scraper :=
    http_requests (trace_of (scrape_jav_scene respond cfg jav_id scraper w)) in
  let scrape q s := POST (SCENE_SCRAPE_JAV_URL cfg) (ScrapeJson q s) in
  sent R18DEV = [scrape (JavIdM.as_content_id jav_id) (lit "r18d")]
  /\ sent JAVDATABASE = [scrape (JavIdM.as_dvd_id jav_id) (lit "javdatabase")]
  /\ sent JAVLIBRARY = [scrape (JavIdM.as_dvd_id jav_id) (lit "javlibrary")]
  /\ JavIdM.as_content_id jav_id <> JavIdM.as_dvd_id jav_id.
Proof.
  cbv zeta. unfold scrape_jav_scene, bind, request, trace_of.
  repeat split; try apply content_id_not_dvd_id;
    match goal with
    | |- context [respond ?r w] => destruct (respond r w) as [resp w']
    end;
    destruct (negb (Z.eqb (status_code resp) 200)); reflexivity.
Qed.

(** C10.  When the scrape request is answered with status 200,
    [scrape_jav_scene] returns after one wait of exactly 10 seconds, for
    every identifier, every provider and every value of
    [JAV_SCRAPE_TIMEOUT]; with any other status it raises the server's
    text without waiting.  Nothing depends on [JAV_SCRAPE_TIMEOUT]: giving
    it any other value changes neither [scrape_jav_scene] nor a run of
    [__main__]. *)
Theorem scrape_wait_is_fixed {W : Type} (respond : Request -> W -> Response * W)
        (cfg : Config) (seconds : Z) (jav_id : JavId) (scraper : JavScrapers) (w : W) :
  let q := scrape_query jav_id scraper in
  let answer :=
    fst (respond (POST (SCENE_SCRAPE_JAV_URL cfg) (ScrapeJson (fst q) (snd q))) w) in
  let run := scrape_jav_scene respond (set_timeout cfg seconds) jav_id scraper w in
  (status_code answer = 200%Z ->
   result_of run = inr tt /\ sleeps (trace_of run) = [10%Z])
  /\ (status_code answer <> 200%Z ->
      result_of run = inl (PyException (content answer))
      /\ sleeps (trace_of run) = [])
  /\ run = scrape_jav_scene respond cfg jav_id scraper w
  /\ main respond (set_timeout cfg seconds) w = main respond cfg w.
Proof.
  cbv zeta.
  change (scrape_jav_scene respond (set_timeout cfg seconds) jav_id scraper w)
    with (scrape_jav_scene respond cfg jav_id scraper w).
  unfold scrape_jav_scene, bind, request, trace_of, result_of, scrape_query.
  cbn [fst snd].
  destruct (respond _ w) as [resp w']. cbn [fst].
  split; [|split; [|split; reflexivity]].
  - intros H. rewrite H. split; reflexivity.
  - intros H. apply Z.eqb_neq in H. rewrite H. split; reflexivity.
Qed.

Lemma scrape_wait_is_fixed_witness :
  result_of (scrape_jav_scene blank_server (set_timeout default_config 60)
               {| studio_code := lit "ABCD"; scene_code := lit "123" |}
               JAVDATABASE tt) = inr tt
  /\ sleeps (trace_of (scrape_jav_scene blank_server (set_timeout default_config 60)
                         {| studio_code := lit "ABCD"; scene_code := lit "123" |}
                         JAVDATABASE tt)) = [10%Z].
Proof.
  apply (proj1 (scrape_wait_is_fixed blank_server default_config 60
                  {| studio_code := lit "ABCD"; scene_code := lit "123" |}
                  JAVDATABASE tt)).
  reflexivity.
Defined.

(** * Further properties of the script *)

(** ** Identifiers built by the parser, continued *)

Section ParsedIdentifiers.

Import PyStr JavIdM.

Lemma canon_studio U n :
  canonical U n ->
  (studio_code (canon U n) = lit "3DSVR" /\ U = lit "DSVR")
  \/ (studio_code (canon U n) = U /\ U <> lit "DSVR").
Proof.
  intros _. unfold canon. cbn [studio_code].
  destruct (PyStr.eqb U (lit "DSVR")) eqn:E.
  - left. apply eqb_true_iff in E. auto.
  - right. apply eqb_false_iff in E. auto.
Qed.

Lemma canon_renormalize U n :
  canonical U n -> new (studio_code (canon U n)) (scene_code (canon U n)) = canon U n.
Proof.
  intros C. pose proof C as [HU HlU Hn Hln Hz].
  destruct (zfill_canonical 3 n Hn Hz) as (HP & HlP & Hstrip).
  unfold new, post_init. cbn [studio_code scene_code].
  unfold canon at 3 4. cbn [scene_code].
  rewrite (strip_id (zfill 3 n) (digits_nospace _ HP)), Hstrip.
  destruct (canon_studio U n C) as [[-> ->]|[-> Hne]].
  - reflexivity.
  - rewrite (strip_id U (uppers_nospace U HU)), (upper_uppers U HU).
    unfold canon. reflexivity.
Qed.

(** Two strings that start with a run of characters satisfying [p], each
    followed by a character that does not, split at the same place. *)
Lemma split_at_class (p : ascii -> bool) a1 a2 c1 c2 b1 b2 :
  Forall (fun c => p c = true) a1 -> Forall (fun c => p c = true) a2 ->
  p c1 = false -> p c2 = false ->
  a1 ++ c1 :: b1 = a2 ++ c2 :: b2 -> a1 = a2 /\ c1 :: b1 = c2 :: b2.
Proof.
  intros H1. revert a2. induction H1 as [|x a1 Hx H1 IH]; intros a2 H2 Hc1 Hc2 E.
  - destruct H2 as [|y a2 Hy H2]; [auto|].
    simpl in E. injection E as -> _. congruence.
  - destruct H2 as [|y a2 Hy H2].
    + simpl in E. injection E as <- _. congruence.
    + simpl in E. injection E as -> E.
      destruct (IH a2 H2 Hc1 Hc2 E) as [-> Hb]. auto.
Qed.

Lemma zfill_digits_head w n :
  0 < w -> digits n ->
  exists d r, zfill w n = d :: r /\ is_digit d = true.
Proof.
  intros Hw Hn. rewrite (zfill_digits w n Hn).
  destruct (w - length n) as [|k] eqn:E.
  - destruct Hn as [|d r Hd Hr]; [simpl in E; lia|]. exists d, r. auto.
  - exists "0"%char, (repeat "0"%char k ++ n). auto.
Qed.

Lemma zfill_inj w n1 n2 :
  digits n1 -> no_leading_zero n1 -> digits n2 -> no_leading_zero n2 ->
  zfill w n1 = zfill w n2 -> n1 = n2.
Proof.
  intros H1 Z1 H2 Z2 E.
  destruct (zfill_canonical w n1 H1 Z1) as (_ & _ & <-).
  destruct (zfill_canonical w n2 H2 Z2) as (_ & _ & <-).
  rewrite E. reflexivity.
Qed.

Lemma content_id_canon_inj U1 n1 U2 n2 :
  canonical U1 n1 -> canonical U2 n2 ->
  as_content_id (canon U1 n1) = as_content_id (canon U2 n2) ->
  canon U1 n1 = canon U2 n2.
Proof.
  intros C1 C2. rewrite (as_content_id_canon _ _ C1), (as_content_id_canon _ _ C2).
  destruct C1 as [HU1 Hl1 Hn1 _ Hz1], C2 as [HU2 Hl2 Hn2 _ Hz2].
  destruct (zfill_digits_head 5 n1) as (d1 & r1 & E1 & Hd1); [lia|auto|].
  destruct (zfill_digits_head 5 n2) as (d2 & r2 & E2 & Hd2); [lia|auto|].
  assert (Hup : forall U, uppers U -> 4 <= length U ->
                exists c r, U = c :: r /\ is_upper c = true).
  { intros U HU Hl. destruct HU as [|c r Hc Hr]; [simpl in Hl; lia|]. eauto. }
  destruct (PyStr.eqb U1 (lit "DSVR")) eqn:A1;
    destruct (PyStr.eqb U2 (lit "DSVR")) eqn:A2; intros E.
  - apply eqb_true_iff in A1, A2. subst.
    apply app_inv_head in E. rewrite (zfill_inj 5 n1 n2); auto.
  - exfalso. destruct (Hup U2 HU2) as (c & r & -> & Hc); [lia|].
    injection E as <- _. discriminate Hc.
  - exfalso. destruct (Hup U1 HU1) as (c & r & -> & Hc); [lia|].
    injection E as -> _. discriminate Hc.
  - rewrite E1, E2 in E.
    destruct (digit_facts _ Hd1) as (L1 & _), (digit_facts _ Hd2) as (L2 & _).
    destruct (split_at_class is_letter U1 U2 d1 d2 r1 r2
                (uppers_letters _ HU1) (uppers_letters _ HU2) L1 L2 E) as [-> Hd].
    rewrite <- E1, <- E2 in Hd. rewrite (zfill_inj 5 n1 n2); auto.
Qed.

End ParsedIdentifiers.



(** X2.  Building an identifier again from the fields of a parsed one
    changes nothing: the normalization of the constructor is stable on
    parser output. *)
Theorem parsed_id_renormalize (s : str) (x : JavId) :
  JavIdM.from_string s = Some x ->
  JavIdM.new (studio_code x) (scene_code x) = x.
Proof.
  intros H. destruct (from_string_canonical s x H) as (U & n & C & ->).
  apply canon_renormalize. exact C.
Qed.

Lemma parsed_id_renormalize_witness :
  JavIdM.new (lit "3DSVR") (lit "042")
  = {| studio_code := lit "3DSVR"; scene_code := lit "042" |}.
Proof. exact (parsed_id_renormalize (lit "dsvr_0042.mp4") _ eq_refl). Defined.

(** X3.  The two forms of a parsed identifier: with [n] its sequence
    number without leading zeros, the Display form is the studio code, a
    hyphen and [n] padded to 3 digits (4 for ["3DSVR"]); the Content-ID
    form is the studio code (["13DSVR"] for ["3DSVR"]) and [n] padded to 5
    digits. *)
Theorem parsed_id_formats (s : str) (x : JavId) :
  JavIdM.from_string s = Some x ->
  exists n,
    digits n /\ no_leading_zero n /\ length n <= 6
    /\ scene_code x = PyStr.zfill 3 n
    /\ JavIdM.as_dvd_id x
       = studio_code x ++ lit "-"
           ++ PyStr.zfill (if PyStr.eqb (studio_code x) (lit "3DSVR") then 4 else 3) n
    /\ JavIdM.as_content_id x
       = (if PyStr.eqb (studio_code x) (lit "3DSVR") then lit "13DSVR"
          else studio_code x) ++ PyStr.zfill 5 n.
Proof.
  intros H. destruct (from_string_canonical s x H) as (U & n & C & ->).
  pose proof C as [HU HlU Hn Hln Hz]. exists n.
  rewrite (as_dvd_id_canon U n C), (as_content_id_canon U n C).
  repeat (split; [solve [auto]|]).
  destruct (canon_studio U n C) as [[-> ->]|[-> Hne]].
  - split; reflexivity.
  - apply eqb_false_iff in Hne. rewrite Hne, (uppers_not_alias_target U HU).
    split; reflexivity.
Qed.

Lemma parsed_id_formats_witness :
  exists n,
    digits n /\ no_leading_zero n /\ length n <= 6
    /\ lit "042" = PyStr.zfill 3 n
    /\ lit "ABCD-042" = lit "ABCD" ++ lit "-" ++ PyStr.zfill 3 n
    /\ lit "ABCD00042" = lit "ABCD" ++ PyStr.zfill 5 n.
Proof. exact (parsed_id_formats (lit "abcd.0042") _ eq_refl). Defined.

(** X4.  Two parsed identifiers with the same Content-ID form are the same
    identifier: distinct identifiers are searched and scraped under
    distinct Content-IDs. *)
Theorem as_content_id_injective (s1 s2 : str) (x1 x2 : JavId) :
  JavIdM.from_string s1 = Some x1 ->
  JavIdM.from_string s2 = Some x2 ->
  JavIdM.as_content_id x1 = JavIdM.as_content_id x2 ->
  x1 = x2.
Proof.
  intros H1 H2.
  destruct (from_string_canonical s1 x1 H1) as (U1 & n1 & C1 & ->).
  destruct (from_string_canonical s2 x2 H2) as (U2 & n2 & C2 & ->).
  apply content_id_canon_inj; assumption.
Qed.

Lemma as_content_id_injective_witness :
  {| studio_code := lit "ABCD"; scene_code := lit "123" |}
  = {| studio_code := lit "ABCD"; scene_code := lit "123" |}.
Proof.
  exact (as_content_id_injective (lit "ABCD-123") (lit "abcd 00123.mkv") _ _
           eq_refl eq_refl eq_refl).
Defined.

(** ** The pattern, continued: letter case *)
















Section CaseMap.

Import Re.

(** A change of letter case, character by character. *)
Variable f : ascii -> ascii.
Hypothesis f_class : forall cs c, class_match true cs (f c) = class_match true cs c.
Hypothesis f_upper : forall c, PyStr.upper_chars (f c) = PyStr.upper_chars c.
Hypothesis f_digit : forall c, is_digit c = true -> f c = c.









End CaseMap.

(** [str.upper] lengthens a name that holds a sharp s, and the longer run
    of letters can make an identifier appear. *)
Example from_string_upper_sharp_s :
  JavIdM.from_string ("223"%char :: lit "abc-123") = None
  /\ JavIdM.from_string (PyStr.upper ("223"%char :: lit "abc-123"))
     = Some {| studio_code := lit "SSABC"; scene_code := lit "123" |}.
Proof. split; vm_compute; reflexivity. Qed.



(** ** The pattern, continued: what is accepted *)

Section Occurrence.

Import Re.

Lemma greedy_counts_In_iff lo hi avail k :
  In k (greedy_counts lo hi avail) <-> lo <= k <= top_count hi avail.
Proof.
  unfold greedy_counts. fold (top_count hi avail).
  rewrite <- in_rev, in_seq. lia.
Qed.

Lemma top_count_le hi avail : top_count hi avail <= avail.
Proof. destruct hi; simpl; lia. Qed.

Lemma first_some_exists {A B : Type} (f : A -> option B) l k :
  In k l -> f k <> None -> first_some f l <> None.
Proof.
  induction l as [|x l IH]; [intros []|]. intros [->|Hin] Hk; simpl.
  - destruct (f k); [discriminate | contradiction].
  - destruct (f x); [discriminate | auto].
Qed.

Lemma span_ge p a b :
  Forall (fun c => p c = true) a -> length a <= span p (a ++ b).
Proof.
  induction 1 as [|c a Hc Ha IH]; simpl; [lia|]. rewrite Hc. lia.
Qed.

Lemma taken k s p :
  k <= span p s ->
  s = firstn k s ++ skipn k s
  /\ Forall (fun c => p c = true) (firstn k s) /\ length (firstn k s) = k.
Proof.
  intros H. destruct (span_firstn p s k H) as [HF HL].
  rewrite firstn_skipn. auto.
Qed.

Lemma counts_taken lo hi cs s k :
  In k (greedy_counts lo hi (span (class_match true cs) s)) ->
  s = firstn k s ++ skipn k s
  /\ Forall (fun c => class_match true cs c = true) (firstn k s)
  /\ lo <= length (firstn k s)
  /\ length (firstn k s) <= top_count hi (span (class_match true cs) s).
Proof.
  intros Hin. apply greedy_counts_In_iff in Hin.
  pose proof (top_count_le hi (span (class_match true cs) s)).
  destruct (taken k s (class_match true cs)) as (E & HF & HL); [lia|].
  rewrite HL. auto.
Qed.

(** Soundness of a match at the current position, with the matched text. *)
Lemma match_here_occurrence prev s gs :
  match_here true PAT_JAV_ID prev s = Some gs ->
  match prev with Some c => is_letter c = false | None => True end
  /\ exists L m1 m2 m3 D post,
       s = L ++ m1 ++ m2 ++ m3 ++ D ++ post
       /\ gs = [L; D]
       /\ length D = Nat.min 6 (span is_digit (D ++ post))
       /\ letters L /\ 4 <= length L <= 6
       /\ Forall (fun c => is_ws c = true) m1
       /\ Forall (fun c => is_sep c = true) m2
       /\ Forall (fun c => is_ws c = true) m3
       /\ digits D /\ 3 <= length D <= 6.
Proof.
  unfold PAT_JAV_ID. cbn [match_here]. intros H.
  assert (Hprev : match prev with Some c => is_letter c = false | None => True end).
  { destruct prev as [c|]; [|exact I]. unfold is_letter.
    destruct (class_match true (Range "a" "z") c); [discriminate H | reflexivity]. }
  split; [exact Hprev|].
  assert (H' :
    first_some
      (fun k => option_map (cons (firstn k s))
         (match_here true
            [Repeat Whitespace 0 None; Repeat (OneOf ["-"; "_"; "."]) 0 None;
             Repeat Whitespace 0 None; Capture (Range "0" "9") 3 (Some 6)]
            (last_char prev (firstn k s)) (skipn k s)))
      (greedy_counts 4 (Some 6) (span (class_match true (Range "a" "z")) s))
    = Some gs).
  { destruct prev as [c|]; [destruct (class_match true (Range "a" "z") c)|];
      try discriminate; exact H. }
  clear H. apply first_some_In in H'. destruct H' as (k1 & Hk1 & H).
  destruct (counts_taken _ _ _ _ _ Hk1) as (E1 & F1 & Lo1 & Hi1).
  cbn [match_here] in H.
  destruct (first_some _ _) as [gs'|] eqn:E in H; [|discriminate].
  injection H as <-.
  apply first_some_In in E. destruct E as (k2 & Hk2 & E).
  destruct (counts_taken _ _ _ _ _ Hk2) as (E2 & F2 & _).
  apply first_some_In in E. destruct E as (k3 & Hk3 & E).
  destruct (counts_taken _ _ _ _ _ Hk3) as (E3 & F3 & _).
  apply first_some_In in E. destruct E as (k4 & Hk4 & E).
  destruct (counts_taken _ _ _ _ _ Hk4) as (E4 & F4 & _).
  set (s1 := skipn k1 s) in *. set (s2 := skipn k2 s1) in *.
  set (s3 := skipn k3 s2) in *. set (s4 := skipn k4 s3) in *.
  cbn [match_here option_map] in E.
  set (k5 := top_count (Some 6) (span (class_match true (Range "0" "9")) s4)).
  assert (Hk5 : In k5 (greedy_counts 3 (Some 6)
                         (span (class_match true (Range "0" "9")) s4))
                /\ gs' = [firstn k5 s4]).
  { destruct (le_lt_dec 3 k5) as [Hle|Hlt].
    - destruct (greedy_counts_top 3 (Some 6) _ Hle) as (rest & Hc).
      fold k5 in Hc. rewrite Hc in E. cbn [first_some] in E. injection E as <-.
      rewrite Hc. split; [left|]; reflexivity.
    - rewrite (greedy_counts_empty 3 (Some 6) _ Hlt) in E. discriminate E. }
  destruct Hk5 as [Hk5 ->].
  destruct (counts_taken _ _ _ _ _ Hk5) as (E5 & F5 & Lo5 & Hi5).
  assert (Hlen : length (firstn k5 s4) = k5).
  { apply greedy_counts_In_iff in Hk5.
    pose proof (top_count_le (Some 6) (span (class_match true (Range "0" "9")) s4)).
    apply (taken k5 s4 (class_match true (Range "0" "9"))). fold k5 in H. lia. }
  unfold top_count in Hi1, Hi5.
  exists (firstn k1 s), (firstn k2 s1), (firstn k3 s2), (firstn k4 s3),
    (firstn k5 s4), (skipn k5 s4).
  split; [rewrite <- E5, <- E4, <- E3, <- E2; exact E1|].
  split; [reflexivity|].
  split; [rewrite firstn_skipn, Hlen; reflexivity|].
  repeat split; try assumption; lia.
Qed.

Lemma last_char_cons prev c pre :
  last_char prev (c :: pre) = last_char (Some c) pre.
Proof.
  unfold last_char. simpl. destruct (rev pre); reflexivity.
Qed.

Lemma search_from_occurrence prev s gs :
  search_from true PAT_JAV_ID prev s = Some gs ->
  exists pre s',
    s = pre ++ s' /\ match_here true PAT_JAV_ID (last_char prev pre) s' = Some gs.
Proof.
  revert prev. induction s as [|c s IH]; intros prev; cbn [search_from].
  - destruct (match_here true PAT_JAV_ID prev []) eqn:E; [|discriminate].
    intros [= <-]. exists [], []. auto.
  - destruct (match_here true PAT_JAV_ID prev (c :: s)) eqn:E.
    + intros [= <-]. exists [], (c :: s). auto.
    + intros H. destruct (IH (Some c) H) as (pre & s' & -> & Hm).
      exists (c :: pre), s'. rewrite last_char_cons. auto.
Qed.

Lemma search_from_app prev pre s' :
  match_here true PAT_JAV_ID (last_char prev pre) s' <> None ->
  search_from true PAT_JAV_ID prev (pre ++ s') <> None.
Proof.
  revert prev. induction pre as [|c pre IH]; intros prev H.
  - change (last_char prev []) with prev in H. cbn [app].
    destruct s' as [|c s']; cbn [search_from];
      destruct (match_here true PAT_JAV_ID prev _); [discriminate | contradiction
                                                    | discriminate | contradiction].
  - cbn [app search_from].
    destruct (match_here true PAT_JAV_ID prev (c :: pre ++ s')); [discriminate|].
    apply IH. rewrite <- (last_char_cons prev). exact H.
Qed.

Lemma head_not_letter m1 m2 m3 D post :
  Forall (fun c => is_ws c = true) m1 ->
  Forall (fun c => is_sep c = true) m2 ->
  Forall (fun c => is_ws c = true) m3 ->
  digits D -> 3 <= length D ->
  exists c r, m1 ++ m2 ++ m3 ++ D ++ post = c :: r /\ is_letter c = false.
Proof.
  assert (Hws : forall c, implb (is_ws c) (negb (is_letter c)) = true) by ascii_exhaust.
  assert (Hsep : forall c, implb (is_sep c) (negb (is_letter c)) = true) by ascii_exhaust.
  intros H1 H2 H3 HD Hl.
  destruct H1 as [|c r Hc _].
  2:{ exists c, (r ++ m2 ++ m3 ++ D ++ post). split; [reflexivity|].
      apply negb_true_iff. exact (implb_elim _ _ (Hws c) Hc). }
  destruct H2 as [|c r Hc _].
  2:{ exists c, (r ++ m3 ++ D ++ post). split; [reflexivity|].
      apply negb_true_iff. exact (implb_elim _ _ (Hsep c) Hc). }
  destruct H3 as [|c r Hc _].
  2:{ exists c, (r ++ D ++ post). split; [reflexivity|].
      apply negb_true_iff. exact (implb_elim _ _ (Hws c) Hc). }
  destruct HD as [|c r Hc _]; [simpl in Hl; lia|].
  exists c, (r ++ post). split; [reflexivity|]. apply (digit_facts c Hc).
Qed.

Lemma firstn_skipn_app {A : Type} (a b : list A) :
  firstn (length a) (a ++ b) = a /\ skipn (length a) (a ++ b) = b.
Proof.
  split.
  - rewrite firstn_app, Nat.sub_diag, firstn_all. simpl. apply app_nil_r.
  - rewrite skipn_app, Nat.sub_diag, skipn_all. reflexivity.
Qed.

(** Completeness of a match at the position of an occurrence. *)
Lemma match_here_complete prev L m1 m2 m3 D post :
  match prev with Some c => is_letter c = false | None => True end ->
  letters L -> 4 <= length L <= 6 ->
  Forall (fun c => is_ws c = true) m1 ->
  Forall (fun c => is_sep c = true) m2 ->
  Forall (fun c => is_ws c = true) m3 ->
  digits D -> 3 <= length D <= 6 ->
  match_here true PAT_JAV_ID prev (L ++ m1 ++ m2 ++ m3 ++ D ++ post) <> None.
Proof.
  intros Hprev HL HlL H1 H2 H3 HD HlD.
  destruct (head_not_letter m1 m2 m3 D post H1 H2 H3 HD) as (c & r & Er & Hc); [lia|].
  unfold PAT_JAV_ID. cbn [match_here].
  assert (Hgo :
    first_some
      (fun k => option_map (cons (firstn k (L ++ m1 ++ m2 ++ m3 ++ D ++ post)))
         (match_here true
            [Repeat Whitespace 0 None; Repeat (OneOf ["-"; "_"; "."]) 0 None;
             Repeat Whitespace 0 None; Capture (Range "0" "9") 3 (Some 6)]
            (last_char prev (firstn k (L ++ m1 ++ m2 ++ m3 ++ D ++ post)))
            (skipn k (L ++ m1 ++ m2 ++ m3 ++ D ++ post))))
      (greedy_counts 4 (Some 6)
         (span (class_match true (Range "a" "z")) (L ++ m1 ++ m2 ++ m3 ++ D ++ post)))
    <> None).
  { apply (first_some_exists _ _ (length L)).
    - apply greedy_counts_In_iff. unfold top_count.
      change (class_match true (Range "a" "z")) with is_letter.
      rewrite Er, (span_app_stop is_letter L c r HL Hc). lia.
    - destruct (firstn_skipn_app L (m1 ++ m2 ++ m3 ++ D ++ post)) as [-> ->].
      set (p1 := last_char prev L). clearbody p1.
      cbn [match_here].
      assert (Hin : forall cs a b,
                 Forall (fun c => class_match true cs c = true) a ->
                 In (length a) (greedy_counts 0 None (span (class_match true cs) (a ++ b)))).
      { intros cs a b Ha. apply greedy_counts_In_iff. unfold top_count.
        pose proof (span_ge (class_match true cs) a b Ha). lia. }
      intros Hnone.
      destruct (first_some _ _) eqn:E in Hnone; [discriminate Hnone|]. clear Hnone.
      revert E. apply (first_some_exists _ _ (length m1)); [apply Hin; exact H1|].
      rewrite (proj2 (firstn_skipn_app m1 (m2 ++ m3 ++ D ++ post))).
      apply (first_some_exists _ _ (length m2)); [apply Hin; exact H2|].
      rewrite (proj2 (firstn_skipn_app m2 (m3 ++ D ++ post))).
      apply (first_some_exists _ _ (length m3)); [apply Hin; exact H3|].
      rewrite (proj2 (firstn_skipn_app m3 (D ++ post))).
      apply (first_some_exists _ _ (length D)).
      + apply greedy_counts_In_iff. unfold top_count.
        pose proof (span_ge (class_match true (Range "0" "9")) D post HD). lia.
      + simpl. discriminate. }
  destruct prev as [c0|]; [|exact Hgo].
  fold (is_letter c0). rewrite Hprev. exact Hgo.
Qed.

Lemma from_string_accepts s :
  JavIdM.from_string s <> None <-> contains_jav_id s.
Proof.
  unfold JavIdM.from_string, search. split.
  - destruct (search_from true PAT_JAV_ID None s) as [gs|] eqn:E;
      [intros _ | intros H; contradiction].
    destruct (search_from_occurrence _ _ _ E) as (pre & s' & -> & Hm).
    destruct (match_here_occurrence _ _ _ Hm)
      as (Hprev & L & m1 & m2 & m3 & D & post & -> & _ & _ & Hrest).
    exists pre, L, m1, m2, m3, D, post. split; [reflexivity|].
    split; [|exact Hrest].
    unfold not_after_letter. unfold last_char in Hprev.
    destruct (rev pre); assumption.
  - intros (pre & L & m1 & m2 & m3 & D & post & -> & Hpre & HL & HlL & H1 & H2 & H3 & HD & HlD).
    assert (Hs : search_from true PAT_JAV_ID None
                   (pre ++ L ++ m1 ++ m2 ++ m3 ++ D ++ post) <> None).
    { apply search_from_app. apply match_here_complete; auto.
      unfold not_after_letter in Hpre. unfold last_char.
      destruct (rev pre); assumption. }
    destruct (search_from true PAT_JAV_ID None _) as [gs|] eqn:E; [|contradiction].
    destruct (search_from_sound _ _ _ E) as (L' & D' & -> & _). discriminate.
Qed.

End Occurrence.

(** The whitespace of the pattern includes U+0085 and the no-break space. *)
Example from_string_latin1_space :
  JavIdM.from_string (lit "ABCD" ++ ["160"%char] ++ lit "123")
  = Some {| studio_code := lit "ABCD"; scene_code := lit "123" |}
  /\ JavIdM.from_string (lit "abcd" ++ ["133"%char] ++ lit "-0123")
     = Some {| studio_code := lit "ABCD"; scene_code := lit "123" |}.
Proof. split; vm_compute; reflexivity. Qed.

(** X6.  The parser finds an identifier exactly in the strings that
    contain 4 to 6 letters not preceded by a letter, followed by optional
    whitespace, separators (hyphen, underscore, period) and whitespace, and
    then 3 to 6 digits; every other string is rejected. *)
Theorem from_string_accepts_iff (s : str) :
  (exists x, JavIdM.from_string s = Some x) <-> contains_jav_id s.
Proof.
  rewrite <- from_string_accepts. split.
  - intros [x ->]. discriminate.
  - destruct (JavIdM.from_string s) as [x|]; [eauto | contradiction].
Qed.

(** ** The dictionary, continued *)

Section DictInvariants.

Context {V : Type}.

Lemma get_None_not_key (k : JavId) (d : PyDict.t V) :
  PyDict.get k d = None <-> ~ In k (PyDict.keys d).
Proof.
  induction d as [|[k' v] d IH]; simpl.
  - tauto.
  - destruct (JavIdM.eqb k' k) eqn:E.
    + apply javid_eqb_true_iff in E. split; [discriminate | tauto].
    + apply javid_eqb_false_iff in E. rewrite IH. tauto.
Qed.

Lemma keys_set_new (k : JavId) (v : V) (d : PyDict.t V) :
  PyDict.get k d = None -> PyDict.set k v d = d ++ [(k, v)].
Proof.
  induction d as [|[k' v'] d IH]; simpl; [reflexivity|].
  destruct (JavIdM.eqb k' k); [discriminate|]. intros H. rewrite IH; auto.
Qed.

Lemma keys_append (k : JavId) (x : V) (d : PyDict.t (list V)) :
  PyDict.keys (PyDict.append k x d) = PyDict.keys d.
Proof.
  induction d as [|[k' v] d IH]; simpl; [reflexivity|].
  destruct (JavIdM.eqb k' k); simpl; [reflexivity|]. rewrite IH. reflexivity.
Qed.

Lemma get_In (k : JavId) (v : V) (d : PyDict.t V) :
  PyDict.get k d = Some v -> In (k, v) d.
Proof.
  induction d as [|[k' v'] d IH]; simpl; [discriminate|].
  destruct (JavIdM.eqb k' k) eqn:E.
  - apply javid_eqb_true_iff in E. intros [= ->]. left. congruence.
  - auto.
Qed.

Lemma In_get (k : JavId) (v : V) (d : PyDict.t V) :
  NoDup (PyDict.keys d) -> In (k, v) d -> PyDict.get k d = Some v.
Proof.
  induction d as [|[k' v'] d IH]; simpl; [intros _ []|].
  intros Hnd [H|H].
  - injection H as -> ->. rewrite javid_eqb_refl. reflexivity.
  - inversion Hnd as [|? ? Hnotin Hnd']; subst.
    destruct (JavIdM.eqb k' k) eqn:E; [|auto].
    apply javid_eqb_true_iff in E. subst k'.
    exfalso. apply Hnotin. change k with (fst (k, v)). apply in_map. exact H.
Qed.

End DictInvariants.

Lemma total_files_app d d' : total_files (d ++ d') = total_files d + total_files d'.
Proof.
  unfold total_files, PyDict.values. rewrite !map_app, list_sum_app. reflexivity.
Qed.

Lemma total_files_append k x d :
  PyDict.get k d <> None ->
  total_files (PyDict.append k x d) = S (total_files d).
Proof.
  induction d as [|[k' v] d IH]; simpl; [congruence|].
  destruct (JavIdM.eqb k' k); intros H.
  - unfold total_files. simpl. rewrite length_app. simpl. lia.
  - specialize (IH H). unfold total_files in *. simpl. rewrite IH. lia.
Qed.

Lemma filter_step_keys d f :
  NoDup (PyDict.keys d) -> NoDup (PyDict.keys (filter_step d f)).
Proof.
  intros Hnd. unfold filter_step.
  destruct (JavIdM.from_string (filename f)) as [j|]; [|exact Hnd].
  destruct (PyStr.startswith _ _); [exact Hnd|].
  rewrite keys_append. unfold PyDict.contains.
  destruct (PyDict.get j d) eqn:E; cbn [negb]; [exact Hnd|].
  rewrite (keys_set_new j [] d E). unfold PyDict.keys. rewrite map_app. simpl.
  apply NoDup_app; [exact Hnd | repeat constructor; intros [] |].
  intros k Hk [<-|[]]. apply get_None_not_key in E. contradiction.
Qed.

Lemma filter_step_total d f :
  total_files (filter_step d f) = total_files d + (if groupable f then 1 else 0).
Proof.
  unfold filter_step, groupable.
  destruct (JavIdM.from_string (filename f)) as [j|]; [|lia].
  fold (is_czech j). destruct (is_czech j); cbn [negb]; [lia|].
  unfold PyDict.contains. destruct (PyDict.get j d) eqn:E; cbn [negb].
  - rewrite total_files_append by congruence. lia.
  - rewrite total_files_append.
    + rewrite (keys_set_new j [] d E), total_files_app. unfold total_files. simpl. lia.
    + rewrite get_set, javid_eqb_refl. discriminate.
Qed.

Lemma filter_fold_keys rest :
  forall d, NoDup (PyDict.keys d) ->
            NoDup (PyDict.keys (fold_left filter_step rest d)).
Proof.
  induction rest as [|f rest IH]; intros d Hd; simpl; [exact Hd|].
  apply IH, filter_step_keys, Hd.
Qed.

Lemma filter_fold_total rest :
  forall d, total_files (fold_left filter_step rest d)
            = total_files d + length (filter groupable rest).
Proof.
  induction rest as [|f rest IH]; intros d; simpl; [lia|].
  rewrite IH, filter_step_total. destruct (groupable f); simpl; lia.
Qed.

Lemma filter_keys_NoDup files :
  NoDup (PyDict.keys (filter_unmatched_files_by_jav_id files)).
Proof. apply filter_fold_keys. constructor. Qed.

Lemma filter_items files k fs :
  In (k, fs) (filter_unmatched_files_by_jav_id files)
  <-> is_czech k = false /\ fs = filter (parses_to k) files /\ fs <> [].
Proof.
  pose proof (filter_fold_get files [] []) as Hget.
  assert (Hspec : forall k', PyDict.get k' (filter_unmatched_files_by_jav_id files)
                             = group_of k' files).
  { intros k'. apply Hget. intros k''. unfold group_of. simpl.
    destruct (is_czech k''); reflexivity. }
  split.
  - intros Hin. apply (In_get _ _ _ (filter_keys_NoDup files)) in Hin.
    rewrite Hspec in Hin. unfold group_of in Hin.
    destruct (is_czech k); [discriminate|].
    destruct (filter (parses_to k) files) as [|f0 l]; [discriminate|].
    injection Hin as <-. repeat split. discriminate.
  - intros (Hcz & -> & Hne). apply get_In. rewrite Hspec. unfold group_of.
    rewrite Hcz. destruct (filter (parses_to k) files); [contradiction | reflexivity].
Qed.

(** X7.  The dictionary of [filter_unmatched_files_by_jav_id] has every
    key once, and its items are exactly the pairs of an identifier that is
    not filtered out and the non-empty list of the input files whose name
    parses to it: the main loop meets each identifier once, with all its
    files. *)
Theorem filter_unmatched_files_items (files : list FileInfo) :
  NoDup (PyDict.keys (filter_unmatched_files_by_jav_id files))
  /\ forall k fs,
       In (k, fs) (filter_unmatched_files_by_jav_id files)
       <-> is_czech k = false /\ fs = filter (parses_to k) files /\ fs <> [].
Proof.
  split; [apply filter_keys_NoDup | apply filter_items].
Qed.

(** X8.  The groups hold as many files as the input has files whose name
    parses to an identifier that is not filtered out: no such file is lost
    and none is counted twice (this is the file count [__main__] prints). *)
Theorem filter_unmatched_files_total (files : list FileInfo) :
  list_sum (map (@List.length FileInfo)
              (PyDict.values (filter_unmatched_files_by_jav_id files)))
  = length (filter groupable files).
Proof. exact (filter_fold_total files []). Qed.

(** ** Choosing the scene *)

Lemma get_scene_for_jav_id_sound jav_id scenes scene :
  get_scene_for_jav_id jav_id scenes = Some scene ->
  In scene scenes /\ JavIdM.from_string (scene_id scene) = Some jav_id.
Proof.
  induction scenes as [|sc scenes IH]; cbn [get_scene_for_jav_id]; [discriminate|].
  destruct (JavIdM.from_string (scene_id sc)) as [sid|] eqn:E; [|discriminate].
  destruct (JavIdM.eqb sid jav_id) eqn:Eq.
  - intros [= <-]. apply javid_eqb_true_iff in Eq. subst sid. split; [left|]; auto.
  - intros H. destruct (IH H). split; [right|]; auto.
Qed.

(** X9.  A scene returned by [get_scene_for_jav_id] is one of the
    candidates, and its scene id parses to the identifier looked for. *)
Theorem get_scene_for_jav_id_result (jav_id : JavId) (scenes : list SceneInfo)
        (scene : SceneInfo) :
  get_scene_for_jav_id jav_id scenes = Some scene ->
  In scene scenes /\ JavIdM.from_string (scene_id scene) = Some jav_id.
Proof. apply get_scene_for_jav_id_sound. Qed.

Lemma get_scene_for_jav_id_result_witness :
  let wanted := {| scene_id := lit "abcd-00123"; title := lit "Wanted" |} in
  let other := {| scene_id := lit "WXYZ-002"; title := lit "Other" |} in
  In wanted [other; wanted]
  /\ JavIdM.from_string (scene_id wanted)
     = Some {| studio_code := lit "ABCD"; scene_code := lit "123" |}.
Proof.
  exact (get_scene_for_jav_id_result
           {| studio_code := lit "ABCD"; scene_code := lit "123" |}
           [ {| scene_id := lit "WXYZ-002"; title := lit "Other" |};
             {| scene_id := lit "abcd-00123"; title := lit "Wanted" |} ]
           _ eq_refl).
Defined.

(** X10.  On candidates whose scene ids all parse, [get_scene_for_jav_id]
    is the search for the first scene whose id parses to the identifier. *)
Theorem get_scene_for_jav_id_find (jav_id : JavId) (scenes : list SceneInfo) :
  Forall (fun sc => JavIdM.from_string (scene_id sc) <> None) scenes ->
  get_scene_for_jav_id jav_id scenes
  = find (fun sc => match JavIdM.from_string (scene_id sc) with
                    | Some sid => JavIdM.eqb sid jav_id
                    | None => false
                    end) scenes.
Proof.
  induction 1 as [|sc scenes Hsc Hs IH]; cbn [get_scene_for_jav_id find]; [reflexivity|].
  destruct (JavIdM.from_string (scene_id sc)) as [sid|]; [|contradiction].
  destruct (JavIdM.eqb sid jav_id); [reflexivity | exact IH].
Qed.

Lemma get_scene_for_jav_id_find_witness :
  let jav_id := {| studio_code := lit "ABCD"; scene_code := lit "123" |} in
  let scenes := [ {| scene_id := lit "WXYZ-002"; title := lit "Other" |};
                  {| scene_id := lit "ABCD-123"; title := lit "Wanted" |};
                  {| scene_id := lit "abcd_0123"; title := lit "Again" |} ] in
  get_scene_for_jav_id jav_id scenes
  = find (fun sc => match JavIdM.from_string (scene_id sc) with
                    | Some sid => JavIdM.eqb sid jav_id
                    | None => false
                    end) scenes.
Proof.
  apply (get_scene_for_jav_id_find
           {| studio_code := lit "ABCD"; scene_code := lit "123" |}).
  repeat constructor; vm_compute; discriminate.
Defined.

(** ** Runs of the script *)

Section Runs.

Context {W : Type}.
Variable respond : Request -> W -> Response * W.
Variable cfg : Config.

Lemma outcome_eta {A : Type} (o : (Exn + A) * W * list Event) :
  o = (result_of o, state_of o, trace_of o).
Proof. destruct o as [[r w] t]. reflexivity. Qed.

Lemma trace_bind {A B : Type} (m : @M W A) (f : A -> @M W B) w :
  trace_of (bind m f w)
  = trace_of (m w)
    ++ match result_of (m w) with
       | inr a => trace_of (f a (state_of (m w)))
       | inl _ => []
       end.
Proof.
  unfold bind, trace_of, result_of, state_of.
  destruct (m w) as [[[e|a] w'] t]; cbn [fst snd]; [symmetry; apply app_nil_r|].
  destruct (f a w') as [[r w''] t']. reflexivity.
Qed.

Lemma result_bind {A B : Type} (m : @M W A) (f : A -> @M W B) w :
  result_of (bind m f w)
  = match result_of (m w) with
    | inr a => result_of (f a (state_of (m w)))
    | inl e => inl e
    end.
Proof.
  unfold bind, trace_of, result_of, state_of.
  destruct (m w) as [[[e|a] w'] t]; cbn [fst snd]; [reflexivity|].
  destruct (f a w') as [[r w''] t']. reflexivity.
Qed.

Lemma In_trace_bind {A B : Type} (m : @M W A) (f : A -> @M W B) w e :
  In e (trace_of (bind m f w)) ->
  In e (trace_of (m w))
  \/ exists a, result_of (m w) = inr a /\ In e (trace_of (f a (state_of (m w)))).
Proof.
  rewrite trace_bind. intros H. apply in_app_or in H. destruct H as [H|H]; [auto|].
  destruct (result_of (m w)) as [x|a]; [destruct H|]. right. eauto.
Qed.

Lemma In_trace_for_each {A S : Type} (l : list A) (body : A -> S -> @M W S) e :
  forall s w,
    In e (trace_of (for_each l body s w)) ->
    exists x s' w', In x l /\ In e (trace_of (body x s' w')).
Proof.
  induction l as [|x l IH]; intros s w; cbn [for_each].
  - intros [].
  - intros H. apply In_trace_bind in H. destruct H as [H|(a & _ & H)].
    + exists x, s, w. split; [left; reflexivity | exact H].
    + destruct (IH _ _ H) as (y & s' & w' & Hy & He).
      exists y, s', w'. split; [right|]; assumption.
Qed.

Lemma match_requests_app t t' :
  match_requests (t ++ t') = match_requests t ++ match_requests t'.
Proof.
  induction t as [|e t IH]; [reflexivity|].
  destruct e as [[u p|u p] resp| |]; try destruct p; simpl; rewrite ?IH; reflexivity.
Qed.

(** *** What a lookup is made of *)

Lemma searches_observed t :
  Forall is_search t ->
  scrape_requests t = [] /\ sleeps t = [] /\ match_requests t = [].
Proof.
  induction 1 as [|e t (url & q & resp & ->) Ht IH]; [auto|]. exact IH.
Qed.

Lemma get_scenes_for_id_searches jid w :
  Forall is_search (trace_of (get_scenes_for_id respond cfg jid w)).
Proof.
  cbv [get_scenes_for_id bind request ret raise trace_of].
  destruct (respond _ w) as [r1 w1].
  destruct (negb (Z.eqb (status_code r1) 200));
    [|destruct (Z.eqb (json_results r1) 0)];
    repeat constructor; unfold is_search; eauto.
Qed.

Lemma first_lookup_searches jav_id w :
  Forall is_search (trace_of (first_lookup respond cfg jav_id w)).
Proof.
  unfold first_lookup, JavIdM.id_formats. cbn [for_each].
  rewrite !trace_bind.
  repeat (apply Forall_app; split);
    try apply get_scenes_for_id_searches;
    repeat match goal with
           | |- Forall _ (match ?r with inl _ => _ | inr _ => _ end) =>
               destruct r; [constructor|]
           | |- Forall _ (_ ++ _) => apply Forall_app; split
           | |- Forall _ (trace_of (bind _ _ _)) => rewrite !trace_bind
           | |- Forall _ (trace_of (get_scenes_for_id _ _ _ _)) =>
               apply get_scenes_for_id_searches
           | |- Forall _ (trace_of (ret _ _)) => constructor
           end.
Qed.

Lemma first_lookup_result jav_id w scene :
  result_of (first_lookup respond cfg jav_id w) = inr (Some scene) ->
  JavIdM.from_string (scene_id scene) = Some jav_id.
Proof.
  unfold first_lookup. rewrite result_bind.
  destruct (result_of (for_each _ _ _ _)) as [e|scenes]; [discriminate|].
  unfold ret, result_of. cbn [fst]. intros [= H].
  apply (get_scene_for_jav_id_sound _ _ _ H).
Qed.

Lemma loop_lookup_eq jav_id before w :
  loop_lookup respond cfg jav_id before w = first_lookup respond cfg jav_id w.
Proof.
  cbv [loop_lookup first_lookup for_each bind get_scenes_for_id request ret raise
       JavIdM.id_formats].
  destruct (respond _ w) as [r1 w1].
  destruct (negb (Z.eqb (status_code r1) 200)); [reflexivity|].
  destruct (Z.eqb (json_results r1) 0);
    destruct (respond _ w1) as [r2 w2];
    destruct (negb (Z.eqb (status_code r2) 200)); try reflexivity;
    destruct (Z.eqb (json_results r2) 0); reflexivity.
Qed.

(** *** The scrape request *)

Lemma scrape_jav_scene_trace jav_id scraper w :
  exists resp,
    trace_of (scrape_jav_scene respond cfg jav_id scraper w)
    = Http (POST (SCENE_SCRAPE_JAV_URL cfg)
              (ScrapeJson (fst (scrape_query jav_id scraper))
                          (snd (scrape_query jav_id scraper)))) resp
        :: match result_of (scrape_jav_scene respond cfg jav_id scraper w) with
           | inr _ => [Sleep 10]
           | inl _ => []
           end.
Proof.
  cbv [scrape_jav_scene bind request emit raise trace_of result_of scrape_query fst snd].
  destruct (respond _ w) as [r1 w1]. exists r1.
  destruct (negb (Z.eqb (status_code r1) 200)); reflexivity.
Qed.

End Runs.

(** X11.  The lookup inside the [while] loop, which assigns
    [jav_scene_info] after each format, behaves like the lookup before the
    loop, which assigns it once at the end: same requests, same result,
    whatever the server answers. *)
Theorem loop_lookup_is_first_lookup {W : Type} (respond : Request -> W -> Response * W)
        (cfg : Config) (jav_id : JavId) (before : option SceneInfo) (w : W) :
  @loop_lookup W respond cfg jav_id before w = @first_lookup W respond cfg jav_id w.
Proof. apply loop_lookup_eq. Qed.

(** ** Order of the requests of one identifier *)

Section Order.

Context {W : Type}.
Variable respond : Request -> W -> Response * W.
Variable cfg : Config.
Variable jav_id : JavId.

Lemma is_prefix_nil {A : Type} (q : list A) : is_prefix [] q.
Proof. exists q. reflexivity. Qed.

Lemma is_prefix_cons {A : Type} (x : A) l q : is_prefix l q -> is_prefix (x :: l) (x :: q).
Proof. intros [rest ->]. exists rest. reflexivity. Qed.

Lemma is_prefix_In {A : Type} (x : A) l q : is_prefix l q -> In x l -> In x q.
Proof. intros [rest ->] H. apply in_or_app. auto. Qed.

Lemma ordered_searches scrapers t t' :
  Forall is_search t -> ordered jav_id scrapers t' -> ordered jav_id scrapers (t ++ t').
Proof.
  intros Hs H. destruct (searches_observed t Hs) as (E1 & E2 & E3).
  unfold ordered. rewrite scrape_requests_app, sleeps_app, match_requests_app, E1, E2, E3.
  exact H.
Qed.

Lemma ordered_nil scrapers : ordered jav_id scrapers [].
Proof.
  repeat split; [apply is_prefix_nil | constructor | simpl; lia].
Qed.

Lemma scrape_loop_ordered scrapers :
  forall info w,
    ordered jav_id scrapers (trace_of (scrape_loop respond cfg jav_id scrapers info w)).
Proof.
  induction scrapers as [|sc rest IH]; intros [scene|] w; cbn [scrape_loop];
    try apply ordered_nil.
  rewrite trace_bind. change (trace_of (emit (Print (MsgAttempt sc)) w))
    with [Print (MsgAttempt sc)].
  change (result_of (emit (Print (MsgAttempt sc)) w)) with (@inr Exn unit tt).
  change (state_of (emit (Print (MsgAttempt sc)) w)) with w. cbv iota.
  rewrite trace_bind.
  destruct (scrape_jav_scene_trace respond cfg jav_id sc w) as [resp ->].
  set (after :=
         match result_of (scrape_jav_scene respond cfg jav_id sc w) with
         | inr _ =>
             trace_of
               (bind (loop_lookup respond cfg jav_id None)
                     (fun info => scrape_loop respond cfg jav_id rest info)
                     (state_of (scrape_jav_scene respond cfg jav_id sc w)))
         | inl _ => []
         end).
  assert (Hafter : ordered jav_id rest after).
  { unfold after.
    destruct (result_of (scrape_jav_scene respond cfg jav_id sc w)); [apply ordered_nil|].
    rewrite trace_bind, loop_lookup_eq. apply ordered_searches.
    - apply first_lookup_searches.
    - destruct (result_of (first_lookup respond cfg jav_id _)); [apply ordered_nil|].
      apply IH. }
  destruct Hafter as (Hp & Hs & Hl & Hm).
  unfold ordered. cbn [app scrape_requests sleeps match_requests map fst snd].
  rewrite scrape_requests_app, sleeps_app, match_requests_app, Hm.
  destruct (result_of (scrape_jav_scene respond cfg jav_id sc w));
    cbn [app scrape_requests sleeps match_requests length].
  - split; [rewrite <- surjective_pairing; apply is_prefix_cons; exact Hp|].
    split; [exact Hs|]. split; [lia | reflexivity].
  - split; [rewrite <- surjective_pairing; apply is_prefix_cons; exact Hp|].
    split; [constructor; [reflexivity | exact Hs]|]. split; [lia | reflexivity].
Qed.

Lemma match_loop_trace scene file_infos :
  forall w,
    let t := trace_of (for_each file_infos
                         (fun file_info _ => match_file_to_scene respond cfg file_info scene)
                         tt w) in
    scrape_requests t = [] /\ sleeps t = []
    /\ is_prefix (match_requests t) (map (match_query scene) file_infos)
    /\ (result_of (for_each file_infos
                     (fun file_info _ => match_file_to_scene respond cfg file_info scene)
                     tt w) = inr tt ->
        match_requests t = map (match_query scene) file_infos).
Proof.
  induction file_infos as [|f rest IH]; intros w; cbn [for_each].
  - repeat split. apply is_prefix_nil.
  - cbv zeta. rewrite trace_bind, result_bind.
    assert (Hone :
      exists resp,
        trace_of (match_file_to_scene respond cfg f scene w)
        = [Http (POST (FILE_MATCH_URL cfg) (MatchJson (file_id f) (scene_id scene))) resp]).
    { cbv [match_file_to_scene bind request ret raise trace_of].
      destruct (respond _ w) as [r1 w1]. exists r1.
      destruct (negb (Z.eqb (status_code r1) 200)); reflexivity. }
    destruct Hone as [resp ->].
    rewrite scrape_requests_app, sleeps_app, match_requests_app.
    destruct (result_of (match_file_to_scene respond cfg f scene w)) as [e|[]].
    + repeat split; [apply is_prefix_cons, is_prefix_nil | discriminate].
    + destruct (IH (state_of (match_file_to_scene respond cfg f scene w)))
        as (E1 & E2 & Hp & Hall).
      cbv zeta in E1, E2, Hp, Hall. rewrite E1, E2.
      repeat split.
      * apply (is_prefix_cons (match_query scene f)). exact Hp.
      * intros Hok. cbn [match_requests app map]. rewrite (Hall Hok). reflexivity.
Qed.

Lemma scrape_loop_result scrapers :
  forall info w scene,
    (forall sc, info = Some sc -> JavIdM.from_string (scene_id sc) = Some jav_id) ->
    result_of (scrape_loop respond cfg jav_id scrapers info w) = inr (Some scene) ->
    JavIdM.from_string (scene_id scene) = Some jav_id.
Proof.
  induction scrapers as [|sc rest IH]; intros [sc0|] w scene Hinfo; cbn [scrape_loop];
    try (unfold ret, result_of; cbn [fst]; intros [= E]; apply Hinfo; congruence).
  rewrite result_bind.
  change (result_of (emit (Print (MsgAttempt sc)) w)) with (@inr Exn unit tt).
  change (state_of (emit (Print (MsgAttempt sc)) w)) with w.
  cbv iota. rewrite result_bind.
  destruct (result_of (scrape_jav_scene respond cfg jav_id sc w));
    [intros H; discriminate H|].
  rewrite result_bind, loop_lookup_eq.
  destruct (result_of (first_lookup respond cfg jav_id _)) as [e|info'] eqn:E;
    [intros H; discriminate H|].
  apply IH. intros sc' ->. eapply first_lookup_result. exact E.
Qed.

(** The trace of the loop body, in its three parts. *)
Lemma process_jav_id_trace file_infos counts w :
  exists t1 t2 t3,
    trace_of (process_jav_id respond cfg (jav_id, file_infos) counts w)
    = [Print MsgBlank; Print (MsgSearching jav_id (length file_infos))]
        ++ t1 ++ t2 ++ t3
    /\ Forall is_search t1
    /\ ordered jav_id JavScrapers_members t2
    /\ scrape_requests t3 = [] /\ sleeps t3 = []
    /\ (match_requests t3 = []
        \/ exists scene,
             JavIdM.from_string (scene_id scene) = Some jav_id
             /\ is_prefix (match_requests t3) (map (match_query scene) file_infos)).
Proof.
  unfold process_jav_id. cbn [fst snd].
  rewrite trace_bind. change (trace_of (emit (Print MsgBlank) w)) with [Print MsgBlank].
  change (result_of (emit (Print MsgBlank) w)) with (@inr Exn unit tt).
  change (state_of (emit (Print MsgBlank) w)) with w. cbv iota.
  rewrite trace_bind.
  change (trace_of (emit (Print (MsgSearching jav_id (length file_infos))) w))
    with [Print (MsgSearching jav_id (length file_infos))].
  change (result_of (emit (Print (MsgSearching jav_id (length file_infos))) w))
    with (@inr Exn unit tt).
  change (state_of (emit (Print (MsgSearching jav_id (length file_infos))) w)) with w.
  cbv iota. rewrite trace_bind.
  exists (trace_of (first_lookup respond cfg jav_id w)).
  pose proof (first_lookup_searches respond cfg jav_id w) as Hs.
  destruct (result_of (first_lookup respond cfg jav_id w)) as [e|found] eqn:Efound.
  { exists [], []. repeat split; auto using ordered_nil.
    apply ordered_nil. }
  set (w1 := state_of (first_lookup respond cfg jav_id w)).
  rewrite trace_bind.
  exists (trace_of (scrape_loop respond cfg jav_id JavScrapers_members found w1)).
  pose proof (scrape_loop_ordered JavScrapers_members found w1) as Ho.
  destruct (result_of (scrape_loop respond cfg jav_id JavScrapers_members found w1))
    as [e|[scene|]] eqn:Einfo.
  - exists []. split; [reflexivity|]. split; [exact Hs|]. split; [exact Ho|].
    repeat split; auto.
  - set (w2 := state_of (scrape_loop respond cfg jav_id JavScrapers_members found w1)).
    eexists. split; [reflexivity|]. split; [exact Hs|]. split; [exact Ho|].
    rewrite trace_bind.
    change (trace_of (emit (Print (MsgMatching (scene_id scene) (firstn 30 (title scene)))) w2))
      with [Print (MsgMatching (scene_id scene) (firstn 30 (title scene)))].
    change (result_of (emit (Print (MsgMatching (scene_id scene) (firstn 30 (title scene)))) w2))
      with (@inr Exn unit tt).
    change (state_of (emit (Print (MsgMatching (scene_id scene) (firstn 30 (title scene)))) w2))
      with w2.
    cbv iota. rewrite trace_bind.
    destruct (match_loop_trace scene file_infos w2) as (E1 & E2 & Hp & _).
    cbv zeta in E1, E2, Hp.
    assert (Htail : forall r : Exn + unit,
               match r with
               | inr _ => trace_of (@ret W (nat * nat) (S (fst counts), snd counts)
                                      (state_of (for_each file_infos
                                         (fun file_info _ =>
                                            match_file_to_scene respond cfg file_info scene)
                                         tt w2)))
               | inl _ => []
               end = []) by (intros [|]; reflexivity).
    rewrite Htail, app_nil_r.
    cbn [app scrape_requests sleeps match_requests].
    repeat split; auto. right. exists scene. split; [|exact Hp].
    apply (scrape_loop_result JavScrapers_members found w1 scene); [|exact Einfo].
    intros sc ->. eapply first_lookup_result. exact Efound.
  - eexists. split; [reflexivity|]. split; [exact Hs|]. split; [exact Ho|].
    rewrite trace_bind. cbn. auto.
Qed.

End Order.

(** ** Runs of the loop body and of the script *)

Section Batch.

Context {W : Type}.
Variable respond : Request -> W -> Response * W.
Variable cfg : Config.

Lemma In_match_requests t fid sid :
  In (fid, sid) (match_requests t)
  <-> exists url resp, In (Http (POST url (MatchJson fid sid)) resp) t.
Proof.
  induction t as [|e t IH]; simpl.
  - split; [intros [] | intros (? & ? & [])].
  - destruct e as [[u p|u p] resp| |]; try destruct p; simpl; rewrite IH;
      split;
      try (intros (url & r & H); exists url, r; right; exact H);
      try (intros (url & r & [H|H]); [discriminate H | exists url, r; exact H]).
    + intros [H|(url & r & H)].
      * injection H as <- <-. exists u, resp. left. reflexivity.
      * exists url, r. right. exact H.
    + intros (url & r & [H|H]).
      * injection H as <- <- <- <-. left. reflexivity.
      * right. exists url, r. exact H.
Qed.

Lemma process_jav_id_observed jav_id file_infos counts w :
  let t := trace_of (process_jav_id respond cfg (jav_id, file_infos) counts w) in
  is_prefix (scrape_requests t) (map (scrape_query jav_id) JavScrapers_members)
  /\ Forall (fun n => n = 10%Z) (sleeps t)
  /\ length (sleeps t) <= length (scrape_requests t)
  /\ (match_requests t = []
      \/ exists scene,
           JavIdM.from_string (scene_id scene) = Some jav_id
           /\ is_prefix (match_requests t) (map (match_query scene) file_infos)).
Proof.
  cbv zeta.
  destruct (process_jav_id_trace respond cfg jav_id file_infos counts w)
    as (t1 & t2 & t3 & -> & Hs & (Hp & H10 & Hl & Hm) & E3 & E3' & Hmatch).
  destruct (searches_observed t1 Hs) as (E1 & E1' & E1'').
  cbn [app scrape_requests sleeps match_requests].
  rewrite !scrape_requests_app, !sleeps_app, !match_requests_app.
  rewrite E1, E1', E1'', E3, E3', Hm, !app_nil_r. cbn [app].
  repeat split; assumption.
Qed.

Lemma process_jav_id_match jav_id file_infos counts w fid sid :
  In (fid, sid)
     (match_requests (trace_of (process_jav_id respond cfg (jav_id, file_infos) counts w))) ->
  JavIdM.from_string sid = Some jav_id
  /\ exists f, In f file_infos /\ file_id f = fid.
Proof.
  intros Hin.
  destruct (process_jav_id_observed jav_id file_infos counts w) as (_ & _ & _ & [E|H]).
  - rewrite E in Hin. destruct Hin.
  - destruct H as (scene & Hscene & Hp).
    apply (is_prefix_In _ _ _ Hp) in Hin. apply in_map_iff in Hin.
    destruct Hin as (f & [= <- <-] & Hf). eauto.
Qed.

Lemma match_loop_ok scene file_infos :
  (forall fid sid w,
      status_code (fst (respond (POST (FILE_MATCH_URL cfg) (MatchJson fid sid)) w))
      = 200%Z) ->
  forall w,
    result_of (for_each file_infos
                 (fun file_info _ => match_file_to_scene respond cfg file_info scene)
                 tt w) = inr tt.
Proof.
  intros Hok. induction file_infos as [|f rest IH]; intros w; cbn [for_each];
    [reflexivity|].
  rewrite result_bind.
  assert (E : result_of (match_file_to_scene respond cfg f scene w) = inr tt).
  { cbv [match_file_to_scene bind request ret raise result_of].
    pose proof (Hok (file_id f) (scene_id scene) w) as H.
    destruct (respond _ w) as [r1 w1]. cbn [fst] in *. rewrite H. reflexivity. }
  rewrite E. apply IH.
Qed.

Lemma process_jav_id_found jav_id file_infos counts w scene :
  result_of (first_lookup respond cfg jav_id w) = inr (Some scene) ->
  (forall fid sid w0,
      status_code (fst (respond (POST (FILE_MATCH_URL cfg) (MatchJson fid sid)) w0))
      = 200%Z) ->
  let o := process_jav_id respond cfg (jav_id, file_infos) counts w in
  result_of o = inr (S (fst counts), snd counts)
  /\ scrape_requests (trace_of o) = []
  /\ sleeps (trace_of o) = []
  /\ match_requests (trace_of o) = map (match_query scene) file_infos.
Proof.
  intros Hfound Hok. cbv zeta. unfold process_jav_id. cbn [fst snd].
  pose proof (first_lookup_searches respond cfg jav_id w) as Hs.
  destruct (searches_observed _ Hs) as (E1 & E1' & E1'').
  set (w1 := state_of (first_lookup respond cfg jav_id w)).
  pose proof (match_loop_ok scene file_infos Hok w1) as Hloop.
  destruct (match_loop_trace respond cfg scene file_infos w1) as (E3 & E3' & _ & Hall).
  cbv zeta in E3, E3', Hall. specialize (Hall Hloop).
  rewrite ?result_bind, ?trace_bind.
  change (result_of (emit (Print MsgBlank) w)) with (@inr Exn unit tt).
  change (state_of (emit (Print MsgBlank) w)) with w. cbv iota.
  rewrite ?result_bind, ?trace_bind.
  change (result_of (emit (Print (MsgSearching jav_id (length file_infos))) w))
    with (@inr Exn unit tt).
  change (state_of (emit (Print (MsgSearching jav_id (length file_infos))) w)) with w.
  cbv iota. rewrite ?result_bind, ?trace_bind, Hfound. fold w1.
  rewrite ?result_bind, ?trace_bind. unfold JavScrapers_members. cbn [scrape_loop].
  change (result_of (@ret W _ (Some scene) w1)) with (@inr Exn _ (Some scene)).
  change (state_of (@ret W _ (Some scene) w1)) with w1.
  change (trace_of (@ret W _ (Some scene) w1)) with (@nil Event). cbv iota.
  rewrite ?result_bind, ?trace_bind.
  change (result_of (emit (Print (MsgMatching (scene_id scene) (firstn 30 (title scene)))) w1))
    with (@inr Exn unit tt).
  change (state_of (emit (Print (MsgMatching (scene_id scene) (firstn 30 (title scene)))) w1))
    with w1.
  cbv iota. rewrite ?result_bind, ?trace_bind, Hloop.
  split; [reflexivity|].
  cbn [app trace_of emit ret snd fst].
  fold (trace_of (first_lookup respond cfg jav_id w)).
  fold (trace_of (for_each file_infos
                    (fun file_info _ => match_file_to_scene respond cfg file_info scene)
                    tt w1)).
  cbn [scrape_requests sleeps match_requests].
  rewrite scrape_requests_app, sleeps_app, match_requests_app, E1, E1', E1''.
  cbn [scrape_requests sleeps match_requests app].
  rewrite !app_nil_r, E3, E3', Hall. repeat split; reflexivity.
Qed.

Lemma process_jav_id_counts item counts w counts' :
  result_of (process_jav_id respond cfg item counts w) = inr counts' ->
  fst counts' + snd counts' = S (fst counts + snd counts).
Proof.
  unfold process_jav_id. rewrite ?result_bind.
  change (result_of (emit (Print MsgBlank) w)) with (@inr Exn unit tt). cbv iota.
  rewrite ?result_bind.
  change (result_of (emit (Print (MsgSearching (fst item) (length (snd item))))
                       (state_of (emit (Print MsgBlank) w))))
    with (@inr Exn unit tt). cbv iota.
  rewrite ?result_bind.
  destruct (result_of (first_lookup _ _ _ _)) as [e|found]; [discriminate|].
  rewrite ?result_bind.
  destruct (result_of (scrape_loop _ _ _ _ _ _)) as [e|[scene|]]; [discriminate| |].
  - rewrite ?result_bind.
    match goal with
    | |- context [result_of (emit ?ev ?w0)] =>
        change (result_of (emit ev w0)) with (@inr Exn unit tt)
    end.
    cbv iota. rewrite ?result_bind.
    destruct (result_of (for_each _ _ _ _)) as [e|u]; [discriminate|].
    unfold ret, result_of. cbn [fst snd]. intros [= <-]. cbn [fst snd]. lia.
  - rewrite ?result_bind.
    match goal with
    | |- context [result_of (emit ?ev ?w0)] =>
        change (result_of (emit ev w0)) with (@inr Exn unit tt)
    end.
    cbv iota. unfold ret, result_of. cbn [fst snd]. intros [= <-]. cbn [fst snd]. lia.
Qed.

Lemma for_each_counts items :
  forall counts w counts',
    result_of (for_each items (process_jav_id respond cfg) counts w) = inr counts' ->
    fst counts' + snd counts' = fst counts + snd counts + length items.
Proof.
  induction items as [|item items IH]; intros counts w counts'; cbn [for_each].
  - unfold ret, result_of. cbn [fst]. intros [= <-]. simpl. lia.
  - rewrite result_bind.
    destruct (result_of (process_jav_id respond cfg item counts w)) as [e|c1] eqn:E;
      [discriminate|].
    intros H. apply IH in H. apply process_jav_id_counts in E. simpl. lia.
Qed.

Lemma main_after_list_counts files w counts :
  result_of (main_after_list respond cfg files w) = inr counts ->
  fst counts + snd counts = length (filter_unmatched_files_by_jav_id files).
Proof.
  unfold main_after_list. rewrite ?result_bind.
  match goal with
  | |- context [result_of (emit ?ev w)] =>
      change (result_of (emit ev w)) with (@inr Exn unit tt)
  end.
  cbv iota. rewrite ?result_bind.
  destruct (result_of (for_each _ _ _ _)) as [e|c1] eqn:E; [discriminate|].
  rewrite ?result_bind.
  match goal with
  | |- context [result_of (emit ?ev ?w0)] =>
      change (result_of (emit ev w0)) with (@inr Exn unit tt)
  end.
  cbv iota. rewrite ?result_bind.
  match goal with
  | |- context [result_of (emit ?ev ?w0)] =>
      change (result_of (emit ev w0)) with (@inr Exn unit tt)
  end.
  cbv iota. unfold ret, result_of. cbn [fst]. intros [= <-].
  apply for_each_counts in E. simpl in E. lia.
Qed.

Lemma main_after_list_match files w fid sid :
  In (fid, sid) (match_requests (trace_of (main_after_list respond cfg files w))) ->
  exists f j,
    In f files /\ file_id f = fid
    /\ JavIdM.from_string (filename f) = Some j
    /\ JavIdM.from_string sid = Some j
    /\ is_czech j = false.
Proof.
  intros Hin. apply In_match_requests in Hin. destruct Hin as (url & resp & Hin).
  unfold main_after_list in Hin.
  apply In_trace_bind in Hin. destruct Hin as [[H|[]]|(_ & _ & Hin)]; [discriminate H|].
  apply In_trace_bind in Hin. destruct Hin as [Hin|(c1 & _ & Hin)].
  - apply In_trace_for_each in Hin.
    destruct Hin as ([k fs] & counts & w' & Hitem & Hin).
    assert (Hm : In (fid, sid)
                   (match_requests (trace_of (process_jav_id respond cfg (k, fs) counts w'))))
      by (apply In_match_requests; eauto).
    destruct (process_jav_id_match _ _ _ _ _ _ Hm) as (Hsid & f & Hf & Hfid).
    apply filter_items in Hitem. destruct Hitem as (Hcz & -> & _).
    apply filter_In in Hf. destruct Hf as [Hf Hparse].
    unfold parses_to in Hparse.
    destruct (JavIdM.from_string (filename f)) as [j|] eqn:Ej; [|discriminate].
    apply javid_eqb_true_iff in Hparse. subst j.
    exists f, k. auto.
  - exfalso.
    apply In_trace_bind in Hin. destruct Hin as [[H|[]]|(_ & _ & Hin)]; [discriminate H|].
    apply In_trace_bind in Hin. destruct Hin as [[H|[]]|(_ & _ & [])]. discriminate H.
Qed.

Lemma filter_nothing files :
  Forall (fun f => groupable f = false) files ->
  forall d, fold_left filter_step files d = d.
Proof.
  induction 1 as [|f files Hf Hfs IH]; intros d; simpl; [reflexivity|].
  rewrite <- (IH d) at 2. f_equal. unfold filter_step, groupable in *.
  destruct (JavIdM.from_string (filename f)) as [j|]; [|reflexivity].
  fold (is_czech j). apply negb_false_iff in Hf. rewrite Hf. reflexivity.
Qed.

End Batch.

(** X12.  Whatever the server answers, the loop body triggers the
    providers in the order javdatabase, r18d, javlibrary, each at most
    once; every wait lasts 10 seconds and follows a scrape request. *)
Theorem process_jav_id_scrape_order {W : Type}
        (respond : Request -> W -> Response * W) (cfg : Config) (jav_id : JavId)
        (file_infos : list FileInfo) (counts : nat * nat) (w : W) :
  let t := trace_of (process_jav_id respond cfg (jav_id, file_infos) counts w) in
  is_prefix (scrape_requests t)
    [ (JavIdM.as_dvd_id jav_id, lit "javdatabase");
      (JavIdM.as_content_id jav_id, lit "r18d");
      (JavIdM.as_dvd_id jav_id, lit "javlibrary") ]
  /\ Forall (fun n => n = 10%Z) (sleeps t)
  /\ length (sleeps t) <= length (scrape_requests t).
Proof.
  destruct (process_jav_id_observed respond cfg jav_id file_infos counts w)
    as (Hp & H10 & Hl & _).
  cbv zeta. repeat split; assumption.
Qed.

(** X13.  Whatever the server answers, the loop body sends match requests
    for one scene only, whose scene id parses to the identifier of the
    group, and for the files of the group, in their order and each at most
    once. *)
Theorem process_jav_id_match_requests {W : Type}
        (respond : Request -> W -> Response * W) (cfg : Config) (jav_id : JavId)
        (file_infos : list FileInfo) (counts : nat * nat) (w : W) :
  let t := trace_of (process_jav_id respond cfg (jav_id, file_infos) counts w) in
  match_requests t = []
  \/ exists scene,
       JavIdM.from_string (scene_id scene) = Some jav_id
       /\ is_prefix (match_requests t)
            (map (fun f => (file_id f, scene_id scene)) file_infos).
Proof.
  destruct (process_jav_id_observed respond cfg jav_id file_infos counts w)
    as (_ & _ & _ & H).
  exact H.
Qed.

(** X14.  A run of [__main__] only ever matches a file of the server's
    list of unmatched files to a scene whose scene id parses to the same
    identifier as the file's name, and that identifier is not one of the
    filtered-out ones. *)
Theorem main_matches_same_identifier {W : Type}
        (respond : Request -> W -> Response * W) (cfg : Config) (w : W)
        (fid : Z) (sid : str) :
  In (fid, sid) (match_requests (trace_of (main respond cfg w))) ->
  exists f j,
    In f (json_files (fst (respond (file_list_request cfg) w)))
    /\ file_id f = fid
    /\ JavIdM.from_string (filename f) = Some j
    /\ JavIdM.from_string sid = Some j
    /\ is_czech j = false.
Proof.
  rewrite main_unfold. unfold file_list_request.
  destruct (respond (POST (FILE_LIST_URL cfg) UnmatchedFilter) w) as [resp w1].
  cbn [fst].
  destruct (Z.eqb (status_code resp) 200).
  - pose proof (main_after_list_match respond cfg (json_files resp) w1 fid sid) as H.
    destruct (main_after_list respond cfg (json_files resp) w1) as [[res w2] t].
    exact H.
  - intros [].
Qed.

Lemma main_matches_same_identifier_witness :
  exists f j,
    In f [ {| file_id := 7; filename := lit "abcd-123.mp4" |} ]
    /\ file_id f = 7%Z
    /\ JavIdM.from_string (filename f) = Some j
    /\ JavIdM.from_string (lit "ABCD-123") = Some j
    /\ is_czech j = false.
Proof.
  apply (main_matches_same_identifier matching_server default_config tt
           7%Z (lit "ABCD-123")).
  vm_compute. left. reflexivity.
Defined.

(** X15.  When the first lookup finds a scene and the server accepts the
    match requests, the loop body triggers no provider and does not wait;
    it matches every file of the group to that scene, in order, and counts
    the identifier as good. *)
Theorem process_jav_id_found_at_once {W : Type}
        (respond : Request -> W -> Response * W) (cfg : Config) (jav_id : JavId)
        (file_infos : list FileInfo) (counts : nat * nat) (w : W) (scene : SceneInfo) :
  result_of (@first_lookup W respond cfg jav_id w) = inr (Some scene) ->
  (forall fid sid w0,
      status_code (fst (respond (POST (FILE_MATCH_URL cfg) (MatchJson fid sid)) w0))
      = 200%Z) ->
  let o := process_jav_id respond cfg (jav_id, file_infos) counts w in
  result_of o = inr (S (fst counts), snd counts)
  /\ scrape_requests (trace_of o) = []
  /\ sleeps (trace_of o) = []
  /\ match_requests (trace_of o)
     = map (fun f => (file_id f, scene_id scene)) file_infos.
Proof. apply process_jav_id_found. Qed.

Lemma process_jav_id_found_at_once_witness :
  let o := process_jav_id matching_server default_config
             ({| studio_code := lit "ABCD"; scene_code := lit "123" |},
              [ {| file_id := 7; filename := lit "abcd-123.mp4" |};
                {| file_id := 8; filename := lit "ABCD_123_B.mp4" |} ]) (0, 0) tt in
  result_of o = inr (1, 0)
  /\ scrape_requests (trace_of o) = []
  /\ sleeps (trace_of o) = []
  /\ match_requests (trace_of o) = [ (7%Z, lit "ABCD-123"); (8%Z, lit "ABCD-123") ].
Proof.
  apply (process_jav_id_found_at_once matching_server default_config
           {| studio_code := lit "ABCD"; scene_code := lit "123" |}
           [ {| file_id := 7; filename := lit "abcd-123.mp4" |};
             {| file_id := 8; filename := lit "ABCD_123_B.mp4" |} ] (0, 0) tt
           {| scene_id := lit "ABCD-123"; title := lit "Scene" |}).
  - vm_compute. reflexivity.
  - intros fid sid w0. reflexivity.
Defined.

(** X16.  A run of [__main__] that ends normally has counted every
    identifier of the dictionary once, as matched or as not matched. *)
Theorem main_counts_every_identifier {W : Type}
        (respond : Request -> W -> Response * W) (cfg : Config) (w : W)
        (count_good count_bad : nat) :
  result_of (main respond cfg w) = inr (count_good, count_bad) ->
  count_good + count_bad
  = length (filter_unmatched_files_by_jav_id
              (json_files (fst (respond (file_list_request cfg) w)))).
Proof.
  rewrite main_unfold. unfold file_list_request.
  destruct (respond (POST (FILE_LIST_URL cfg) UnmatchedFilter) w) as [resp w1].
  cbn [fst].
  destruct (Z.eqb (status_code resp) 200).
  - pose proof (main_after_list_counts respond cfg (json_files resp) w1) as H.
    destruct (main_after_list respond cfg (json_files resp) w1) as [[res w2] t].
    unfold result_of in *. cbn [fst] in *. intros E. apply (H _ E).
  - discriminate.
Qed.

Lemma main_counts_every_identifier_witness :
  1 + 0
  = length (filter_unmatched_files_by_jav_id
              [ {| file_id := 7; filename := lit "abcd-123.mp4" |} ]).
Proof.
  apply (main_counts_every_identifier matching_server default_config tt 1 0).
  vm_compute. reflexivity.
Defined.

(** X17.  When the list of unmatched files is retrieved and no file name
    yields an identifier that is kept (in particular when the list is
    empty), [__main__] sends no other request and ends normally with both
    counts at 0. *)
Theorem main_nothing_to_do {W : Type}
        (respond : Request -> W -> Response * W) (cfg : Config) (w : W) :
  status_code (fst (respond (file_list_request cfg) w)) = 200%Z ->
  Forall (fun f => groupable f = false)
    (json_files (fst (respond (file_list_request cfg) w))) ->
  result_of (main respond cfg w) = inr (0, 0)
  /\ http_requests (trace_of (main respond cfg w)) = [file_list_request cfg].
Proof.
  rewrite main_unfold. unfold file_list_request.
  destruct (respond (POST (FILE_LIST_URL cfg) UnmatchedFilter) w) as [resp w1].
  cbn [fst]. intros -> Hnone.
  change (Z.eqb 200 200) with true. cbv iota.
  unfold main_after_list, filter_unmatched_files_by_jav_id.
  rewrite (filter_nothing _ Hnone). split; reflexivity.
Qed.

Lemma main_nothing_to_do_witness :
  result_of (main unrelated_server default_config tt) = inr (0, 0)
  /\ http_requests (trace_of (main unrelated_server default_config tt))
     = [file_list_request default_config].
Proof.
  apply (main_nothing_to_do unrelated_server default_config tt).
  - reflexivity.
  - change (Forall (fun f => groupable f = false) unrelated_files).
    unfold unrelated_files.
    repeat (constructor; [vm_compute; reflexivity|]). constructor.
Defined.

(** ** The pattern, continued: what is read *)

Section Reading.

Import Re.

Lemma match_here_not_at_letter prev c rest :
  is_letter c = false -> match_here true PAT_JAV_ID prev (c :: rest) = None.
Proof.
  intros Hc. unfold PAT_JAV_ID. cbn [match_here span].
  fold (is_letter c). rewrite Hc.
  change (greedy_counts 4 (Some 6) 0) with (@nil nat). cbn [first_some].
  destruct prev as [c0|]; [destruct (class_match true (Range "a" "z") c0)|]; reflexivity.
Qed.

Lemma search_from_skip pre :
  forall prev s',
    Forall (fun c => is_letter c = false) pre ->
    s' <> [] ->
    search_from true PAT_JAV_ID prev (pre ++ s')
    = search_from true PAT_JAV_ID (last_char prev pre) s'.
Proof.
  induction pre as [|c pre IH]; intros prev s' Hpre Hs'; [reflexivity|].
  inversion Hpre as [|? ? Hc Hpre']; subst.
  cbn [app search_from]. rewrite (match_here_not_at_letter prev c _ Hc).
  rewrite (last_char_cons prev). apply IH; assumption.
Qed.

Lemma last_char_not_letter pre :
  Forall (fun c => is_letter c = false) pre ->
  match last_char None pre with Some c => is_letter c = false | None => True end.
Proof.
  intros H. unfold last_char. destruct (rev pre) as [|c r] eqn:E; [exact I|].
  rewrite Forall_forall in H. apply H. apply in_rev. rewrite E. left. reflexivity.
Qed.

Lemma not_digit_table :
  forall c, implb (is_ws c || is_sep c) (negb (is_digit c)) = true.
Proof. ascii_exhaust. Qed.

Lemma fillers_not_digits m1 m2 m3 :
  Forall (fun c => is_ws c = true) m1 ->
  Forall (fun c => is_sep c = true) m2 ->
  Forall (fun c => is_ws c = true) m3 ->
  Forall (fun c => negb (is_digit c) = true) (m1 ++ m2 ++ m3).
Proof.
  intros H1 H2 H3. repeat (apply Forall_app; split);
    (eapply Forall_impl; [|eassumption]); intros c Hc;
    apply (implb_elim _ _ (not_digit_table c)); rewrite Hc;
    auto using orb_true_r.
Qed.

Lemma span_to_end D post :
  digits D ->
  match post with c :: _ => is_digit c = false | [] => True end ->
  span is_digit (D ++ post) = length D.
Proof.
  intros HD Hpost. destruct post as [|c post].
  - rewrite app_nil_r. apply span_all. exact HD.
  - apply span_app_stop; assumption.
Qed.

(** The match at the position of an occurrence whose digits end with the
    string or before a character that is not a digit. *)
Lemma match_here_reads prev L m1 m2 m3 D post :
  match prev with Some c => is_letter c = false | None => True end ->
  letters L -> 4 <= length L <= 6 ->
  Forall (fun c => is_ws c = true) m1 ->
  Forall (fun c => is_sep c = true) m2 ->
  Forall (fun c => is_ws c = true) m3 ->
  digits D -> 3 <= length D <= 6 ->
  match post with c :: _ => is_digit c = false | [] => True end ->
  match_here true PAT_JAV_ID prev (L ++ m1 ++ m2 ++ m3 ++ D ++ post) = Some [L; D].
Proof.
  intros Hprev HL HlL H1 H2 H3 HD HlD Hpost.
  pose proof (match_here_complete prev L m1 m2 m3 D post Hprev HL HlL H1 H2 H3 HD HlD)
    as Hsome.
  destruct (match_here true PAT_JAV_ID prev _) as [gs|] eqn:E; [|contradiction].
  clear Hsome.
  destruct (match_here_occurrence _ _ _ E)
    as (_ & L' & m1' & m2' & m3' & D' & post' & Es & -> & Hlen
        & HL' & HlL' & H1' & H2' & H3' & HD' & HlD').
  destruct (head_not_letter m1 m2 m3 D post H1 H2 H3 HD) as (c & r & Er & Hc); [lia|].
  destruct (head_not_letter m1' m2' m3' D' post' H1' H2' H3' HD')
    as (c' & r' & Er' & Hc'); [lia|].
  rewrite Er, Er' in Es.
  destruct (split_at_class is_letter L L' c c' r r' HL HL' Hc Hc' Es) as [<- Erest].
  rewrite <- Er, <- Er' in Erest.
  assert (HDh : forall X, digits X -> 3 <= length X ->
                exists d Xr, X = d :: Xr /\ negb (is_digit d) = false).
  { intros X HX Hl. destruct HX as [|d Xr Hd _]; [simpl in Hl; lia|].
    exists d, Xr. rewrite Hd. auto. }
  destruct (HDh D HD) as (d & Dr & ED & Hd); [lia|].
  destruct (HDh D' HD') as (d' & Dr' & ED' & Hd'); [lia|].
  assert (Erest' : (m1 ++ m2 ++ m3) ++ d :: (Dr ++ post)
                   = (m1' ++ m2' ++ m3') ++ d' :: (Dr' ++ post')).
  { rewrite <- !app_assoc. change (d :: Dr ++ post) with ((d :: Dr) ++ post).
    change (d' :: Dr' ++ post') with ((d' :: Dr') ++ post').
    rewrite <- ED, <- ED'. exact Erest. }
  destruct (split_at_class (fun c => negb (is_digit c)) _ _ d d' _ _
              (fillers_not_digits _ _ _ H1 H2 H3)
              (fillers_not_digits _ _ _ H1' H2' H3') Hd Hd' Erest') as [_ Etail].
  change (d :: Dr ++ post) with ((d :: Dr) ++ post) in Etail.
  change (d' :: Dr' ++ post') with ((d' :: Dr') ++ post') in Etail.
  rewrite <- ED, <- ED' in Etail.
  rewrite <- Etail, (span_to_end D post HD Hpost) in Hlen.
  assert (ED'' : D' = D).
  { rewrite <- (proj1 (firstn_skipn_app D' post')), <- Etail, Hlen.
    replace (Nat.min 6 (length D)) with (length D) by lia.
    apply (proj1 (firstn_skipn_app D post)). }
  rewrite ED''. reflexivity.
Qed.

Lemma from_string_reads pre L m1 m2 m3 D post :
  Forall (fun c => is_letter c = false) pre ->
  letters L -> 4 <= length L <= 6 ->
  Forall (fun c => is_ws c = true) m1 ->
  Forall (fun c => is_sep c = true) m2 ->
  Forall (fun c => is_ws c = true) m3 ->
  digits D -> 3 <= length D <= 6 ->
  match post with c :: _ => is_digit c = false | [] => True end ->
  JavIdM.from_string (pre ++ L ++ m1 ++ m2 ++ m3 ++ D ++ post)
  = Some (JavIdM.new (PyStr.upper L) (PyStr.lstrip ["0"] D)).
Proof.
  intros Hpre HL HlL H1 H2 H3 HD HlD Hpost.
  unfold JavIdM.from_string, search.
  rewrite search_from_skip; [|exact Hpre|].
  - rewrite (search_from_hit _ _ _ _ [L; D]); [reflexivity|].
    apply match_here_reads; auto. apply last_char_not_letter. exact Hpre.
  - destruct L; [simpl in HlL; lia | discriminate].
Qed.

End Reading.

(** X18.  In a name made of characters that are no letters, then 4 to 6
    letters, any whitespace and separators, and 3 to 6 digits that end the
    name or are followed by a character that is no digit, the parser reads
    exactly these letters and digits: what stands before, between and
    after them does not change the identifier. *)
Theorem from_string_reads_occurrence (pre L m1 m2 m3 D post : str) :
  Forall (fun c => is_letter c = false) pre ->
  letters L -> 4 <= length L <= 6 ->
  Forall (fun c => is_ws c = true) m1 ->
  Forall (fun c => is_sep c = true) m2 ->
  Forall (fun c => is_ws c = true) m3 ->
  digits D -> 3 <= length D <= 6 ->
  match post with c :: _ => is_digit c = false | [] => True end ->
  JavIdM.from_string (pre ++ L ++ m1 ++ m2 ++ m3 ++ D ++ post)
  = Some (JavIdM.new (PyStr.upper L) (PyStr.lstrip ["0"] D)).
Proof. apply from_string_reads. Qed.

Lemma from_string_reads_occurrence_witness :
  JavIdM.from_string
    (lit "[2023] " ++ lit "abcd" ++ lit " " ++ lit "-_" ++ lit " " ++ lit "0123"
       ++ lit ".mp4")
  = Some (JavIdM.new (PyStr.upper (lit "abcd")) (PyStr.lstrip ["0"] (lit "0123"))).
Proof.
  apply (from_string_reads_occurrence (lit "[2023] ") (lit "abcd") (lit " ")
           (lit "-_") (lit " ") (lit "0123") (lit ".mp4"));
    try (repeat constructor); try (simpl; lia).
Defined.
